(** * Raymondo: ingestion, deduplication, cascading delete and routing

    A shallow embedding of the Python sources of the repository:

    - [ingest_in_db_excl_dupes.py]   (module [ExclDupes])
    - [pages/4_Document_Uploader.py] (module [Uploader])
    - [pages/2_Documents.py]         (module [Documents])
    - [1_Raymondo.py]                (module [Raymondo])

    The two Supabase tables the scripts talk to ([uploaded_documents], the
    document registry, and [documents], the vector store) are modelled as
    lists of rows in an explicit [World].  Every call that leaves the
    process (a Supabase query, the embedding + insert done by
    [add_documents], the PDF loader, the SQL agent) may raise: whether the
    n-th such call raises is decided by a fault schedule [fails], so every
    theorem that quantifies over the environment covers every pattern of
    failures.  Python's exceptions, [try]/[except] and [try]/[finally] are
    modelled by a small state-and-error monad.

    What is left to the environment [Env]: the text splitter, the names of
    temporary files and the answers of the two agents are library or model
    behaviour the repository does not define.  Messages are kept word for
    word, without their leading emoji.  The construction of clients and
    models at the top of each script makes no modelled call. *)

From Stdlib Require Import Ascii.
From stdpp Require Import gmap strings list fin_maps pretty sorting.

Local Open Scope string_scope.
Local Open Scope list_scope.

(** ** Data model *)

(** A LangChain [Document]: [page_content] and the [metadata] dict. *)
Record Document := mkDocument {
  page_content : string;
  metadata : gmap string string
}.

Global Instance Document_eq_dec : EqDecision Document.
Proof. solve_decision. Defined.

(** A row of table [uploaded_documents]. *)
Record RegRow := mkRegRow {
  row_id : nat;
  row_name : string;
  row_author : string
}.

Global Instance RegRow_eq_dec : EqDecision RegRow.
Proof. solve_decision. Defined.

(** A parsed PDF: one [Document] per page, as the PDF parser yields it
    before the loader stamps the [source] it was opened from. *)
Definition Pdf := list Document.

(** [doc.metadata['source'] = v] *)
Definition set_source (v : string) (doc : Document) : Document :=
  mkDocument (page_content doc) (<["source" := v]> (metadata doc)).

(** [doc.metadata.get(k, dflt)] *)
Definition metadata_get (doc : Document) (k dflt : string) : string :=
  default dflt (metadata doc !! k).

(** Calls that leave the process. *)
Inductive ExtCall :=
| RegistrySelect (name : string)
    (* table("uploaded_documents").select("name").eq("name", name).execute() *)
| RegistryInsert (name author : string)
    (* table("uploaded_documents").insert({"name":..,"author":..}).execute() *)
| RegistryDelete (id : nat)
    (* table("uploaded_documents").delete().eq("id", id).execute() *)
| ChunksDelete (source : string)
    (* table("documents").delete().eq('metadata->>source', source).execute() *)
| ChunksCount (source : string)
    (* table("documents").select('id', count='exact').eq('metadata->>source', source).execute() *)
| AddDocuments (docs : list Document)
    (* vector_store.add_documents(docs) *)
| LoaderLoad (path : string)
    (* PyPDFLoader(path).load() / PyPDFDirectoryLoader(path).load() *)
| SqlConnect (db_uri : string) (include_tables : list string)
    (* SQLDatabase(create_engine(db_uri), include_tables=[..]) *)
| SqlInvoke (input : string)
    (* sql_executor.invoke({"input": input}) *)
| DocInvoke (input : string).
    (* doc_executor.invoke({"input": input}) *)

(** Python exceptions the scripts can meet. *)
Inductive exn :=
| ExternalError (call : nat)   (* the n-th external call raised *)
| KeyError (key : string).     (* st.secrets[key] with key missing *)

Inductive Event :=
| Call (c : ExtCall) (ok : bool)   (* an external call and whether it returned *)
| StWarning (msg : string)
| StInfo (msg : string)
| StSuccess (msg : string)
| StError (msg : string)
| StException (e : exn)
| StOther (what : string)          (* st.write, st.markdown, st.balloons, ... *)
| LoggerInfo (msg : string)
| LoggerWarning (msg : string)
| Stdout (msg : string)            (* print(msg) *)
| Sleep (seconds : nat)
| TmpWrite (path : string)         (* NamedTemporaryFile(...).write(buffer) *)
| OsRemove (path : string).

Record World := mkWorld {
  uploaded_documents : list RegRow;   (* the document registry *)
  documents : list Document;          (* the vector store's table *)
  next_id : nat;                      (* next serial id of the registry *)
  calls : nat;                        (* external calls issued so far *)
  trace : list Event                  (* what happened, oldest first *)
}.

(** What the scripts cannot decide themselves. *)
Record Env := mkEnv {
  fails : nat -> bool;                  (* does the n-th external call raise? *)
  split_text : string -> list string;   (* RecursiveCharacterTextSplitter(1000, 100).split_text *)
  tmp_name : nat -> string;             (* the name NamedTemporaryFile picks *)
  doc_agent_output : string -> string;  (* result["output"] of the document agent *)
  sql_agent_output : string -> string   (* result["output"] of the SQL agent *)
}.

(** ** The monad: state, exceptions, trace *)

Inductive result (A : Type) :=
| Ok (a : A)
| Raise (e : exn).
Arguments Ok {A} a.
Arguments Raise {A} e.

Definition M (A : Type) : Type := World -> result A * World.

Definition ret {A} (a : A) : M A := fun w => (Ok a, w).

Definition bind {A B} (k : A -> M B) (m : M A) : M B := fun w =>
  match m w with
  | (Ok a, w') => k a w'
  | (Raise e, w') => (Raise e, w')
  end.

(** stdpp's notations: [x ← m; k] and [m;; k]. *)
Global Instance M_ret : MRet M := @ret.
Global Instance M_bind : MBind M := @bind.

(** [try: m except Exception as e: h e] *)
Definition try_except {A} (m : M A) (h : exn -> M A) : M A := fun w =>
  match m w with
  | (Ok a, w') => (Ok a, w')
  | (Raise e, w') => h e w'
  end.

(** [try: m finally: f] *)
Definition try_finally {A} (m : M A) (f : M unit) : M A := fun w =>
  match m w with
  | (r, w') =>
      match f w' with
      | (Ok _, w'') => (r, w'')
      | (Raise e, w'') => (Raise e, w'')
      end
  end.

(** [for x in l: body x] *)
Fixpoint for_each {A} (l : list A) (body : A -> M unit) : M unit :=
  match l with
  | [] => ret tt
  | x :: l' => body x;; for_each l' body
  end.

Definition emit (ev : Event) : M unit := fun w =>
  (Ok tt, mkWorld (uploaded_documents w) (documents w) (next_id w) (calls w)
                  (trace w ++ [ev])).

(** ** The external stores *)

(** The filter [eq('metadata->>source', name)] of the [documents] table. *)
Definition has_source (name : string) (d : Document) : Prop :=
  metadata d !! "source" = Some name.

Global Instance has_source_dec name d : Decision (has_source name d).
Proof. unfold has_source. apply _. Defined.

(** What a call does to the tables when it goes through. *)
Definition apply_call (c : ExtCall) (w : World) : list RegRow * list Document * nat :=
  match c with
  | RegistryInsert name author =>
      (uploaded_documents w ++ [mkRegRow (next_id w) name author],
       documents w, S (next_id w))
  | RegistryDelete id =>
      (filter (fun r => row_id r ≠ id) (uploaded_documents w),
       documents w, next_id w)
  | ChunksDelete source =>
      (uploaded_documents w,
       filter (fun d => ¬ has_source source d) (documents w), next_id w)
  | AddDocuments docs =>
      (uploaded_documents w, documents w ++ docs, next_id w)
  | RegistrySelect _ | ChunksCount _ | LoaderLoad _
  | SqlConnect _ _ | SqlInvoke _ | DocInvoke _ =>
      (uploaded_documents w, documents w, next_id w)
  end.

Section WithEnv.
Context (env : Env).

(** An external call: it is counted, and either raises (the tables are left
    as they were) or takes effect and is answered by [answer], computed on
    the tables as they were when the call was made.  A call is taken to be
    all or nothing; for [add_documents] this is the single insert the
    vector store makes for up to 1000 rows. *)
Definition external {A} (c : ExtCall) (answer : World -> A) : M A := fun w =>
  let n := calls w in
  if fails env n then
    (Raise (ExternalError n),
     mkWorld (uploaded_documents w) (documents w) (next_id w) (S n)
             (trace w ++ [Call c false]))
  else
    let '(reg, docs, nid) := apply_call c w in
    (Ok (answer w), mkWorld reg docs nid (S n) (trace w ++ [Call c true])).

(** [response.data] of the registry lookup by name. *)
Definition registry_select (name : string) : M (list RegRow) :=
  external (RegistrySelect name)
           (fun w => filter (fun r => row_name r = name) (uploaded_documents w)).

Definition registry_insert (name author : string) : M unit :=
  external (RegistryInsert name author) (fun _ => tt).

Definition registry_delete (id : nat) : M unit :=
  external (RegistryDelete id) (fun _ => tt).

Definition chunks_delete (source : string) : M unit :=
  external (ChunksDelete source) (fun _ => tt).

(** [count_response.count] *)
Definition chunks_count (source : string) : M nat :=
  external (ChunksCount source)
           (fun w => length (filter (has_source source) (documents w))).

Definition add_documents (docs : list Document) : M unit :=
  external (AddDocuments docs) (fun _ => tt).

(** [PyPDFLoader(path).load()]: the pages of the file, each stamped with
    the path the loader was given. *)
Definition stamp (path : string) (pdf : Pdf) : list Document :=
  set_source path <$> pdf.

Definition PyPDFLoader_load (path : string) (pdf : Pdf) : M (list Document) :=
  external (LoaderLoad path) (fun _ => stamp path pdf).

(** [text_splitter.split_documents(docs)]: every page is split on its own
    and every chunk carries a copy of its page's metadata. *)
Definition split_document (doc : Document) : list Document :=
  (fun chunk => mkDocument chunk (metadata doc)) <$> split_text env (page_content doc).

Definition split_documents (docs : list Document) : list Document :=
  mjoin (split_document <$> docs).

End WithEnv.

(** ** pages/4_Document_Uploader.py *)

Module Uploader.

(** [file_uploader_object]: [.name] and the PDF held by [.getbuffer()]. *)
Record UploadedFile := mkUploadedFile {
  name : string;
  getbuffer : Pdf
}.

Section WithEnv.
Context (env : Env).

(** [with tempfile.NamedTemporaryFile(delete=False, suffix=".pdf") as tmp_file] *)
Definition named_temporary_file : M string := fun w =>
  let path := tmp_name env (calls w) in
  (Ok path, mkWorld (uploaded_documents w) (documents w) (next_id w) (calls w)
                    (trace w ++ [TmpWrite path])).

(** [documents[0].metadata.get("author", "Unknown") if documents else "Unknown"] *)
Definition first_author (documents : list Document) : string :=
  match documents with
  | d :: _ => metadata_get d "author" "Unknown"
  | [] => "Unknown"
  end.

Definition process_and_ingest_pdf (file_uploader_object : UploadedFile) : M unit :=
  let file_name := name file_uploader_object in
  response ← registry_select env file_name;
  if bool_decide (response ≠ []) then
    emit (StWarning ("Skipping duplicate file: `" +:+ file_name +:+ "`"))
  else
    emit (StInfo ("Processing `" +:+ file_name +:+ "`..."));;
    tmp_file_path ← named_temporary_file;
    try_finally
      (documents ← PyPDFLoader_load env tmp_file_path (getbuffer file_uploader_object);
       let documents := set_source file_name <$> documents in
       let author := first_author documents in
       let docs := split_documents env documents in
       if bool_decide (docs = []) then
         emit (StWarning ("Could not extract any text from `" +:+ file_name
                          +:+ "`. Skipping."))
       else
         add_documents env docs;;
         emit (StInfo ("  - Ingested " +:+ pretty (length docs) +:+ " chunks for `"
                       +:+ file_name +:+ "`."));;
         registry_insert env file_name author;;
         emit (StSuccess ("Successfully processed and ingested `" +:+ file_name +:+ "`.")))
      (emit (OsRemove tmp_file_path)).

(** The upload loop of section 4 of the page, once the resources exist:
    [uploaded_files] is what the file uploader holds and [button] whether
    "Start Upload and Processing" was pressed.  The whole block sits in
    one [try]/[except Exception]. *)
Definition upload_page (uploaded_files : list UploadedFile) (button : bool) : M unit :=
  try_except
    (if bool_decide (uploaded_files ≠ []) then
       emit (StOther "Files to be uploaded:");;
       for_each uploaded_files (fun file => emit (StOther ("- `" +:+ name file +:+ "`")));;
       if button then
         for_each uploaded_files process_and_ingest_pdf;;
         emit (StOther "balloons");;
         emit (StOther "All files have been processed!");;
         emit (StInfo "Navigate to the 'Document Management' page to see the updated chunk counts.")
       else ret tt
     else ret tt)
    (fun e =>
       emit (StError "An error occurred during the setup.");;
       emit (StException e)).

End WithEnv.

End Uploader.

(** ** ingest_in_db_excl_dupes.py *)

Module ExclDupes.

(** The folder [documents]: the PDFs in it, by file name. *)
Definition Directory := list (string * Pdf).

(** [os.path.basename]: what follows the last slash. *)
Fixpoint basename_from (cur p : string) : string :=
  match p with
  | EmptyString => cur
  | String c rest =>
      if Ascii.eqb c "/"%char then basename_from "" rest
      else basename_from (cur +:+ String c "") rest
  end.

Definition basename (p : string) : string := basename_from "" p.

(** [range(0, stop, step)] *)
Definition range_step (stop step : nat) : list nat :=
  (fun k => k * step) <$> seq 0 ((stop + step - 1) / step).

Definition BATCH_SIZE : nat := 100.

(** [str(e)] *)
Definition str (e : exn) : string :=
  match e with
  | ExternalError n => "external call " +:+ pretty n +:+ " failed"
  | KeyError k => "'" +:+ k +:+ "'"
  end.

Section WithEnv.
Context (env : Env).

(** [PyPDFDirectoryLoader("documents").load()]: every page of every file,
    stamped with the file's path below the folder. *)
Definition directory_pages (dir : Directory) : list Document :=
  mjoin ((fun f => stamp ("documents/" +:+ f.1) f.2) <$> dir).

Definition PyPDFDirectoryLoader_load (dir : Directory) : M (list Document) :=
  external env (LoaderLoad "documents") (fun _ => directory_pages dir).

Definition file_name_of (doc : Document) : string :=
  basename (metadata_get doc "source" "unknown.pdf").

(** The loop "Deduplicate and record metadata" (lines 31-48): it runs over
    the loaded page documents; [processed_docs] is the list built so far. *)
Fixpoint dedup_loop (documents processed_docs : list Document) : M (list Document) :=
  match documents with
  | [] => mret processed_docs
  | doc :: rest =>
      let file_name := file_name_of doc in
      let author := metadata_get doc "author" "Unknown" in
      response ← registry_select env file_name;
      if bool_decide (response ≠ [] ∧ 0 < length response) then
        emit (LoggerInfo ("Skipping duplicate: " +:+ file_name));;
        dedup_loop rest processed_docs
      else
        registry_insert env file_name author;;
        dedup_loop rest (processed_docs ++ [doc])
  end.

(** The body of the loop "Ingest in batches to avoid rate limits"
    (lines 66-72) for start index [i], and the loop itself. *)
Definition batch_body (docs : list Document) (i : nat) : M unit :=
  let batch := take BATCH_SIZE (drop i docs) in
  try_except
    (add_documents env batch;;
     emit (LoggerInfo ("Ingested batch " +:+ pretty (i / BATCH_SIZE + 1) +:+ " with "
                       +:+ pretty (length batch) +:+ " chunks.")))
    (fun e =>
       emit (LoggerWarning ("Failed to insert batch " +:+ pretty (i / BATCH_SIZE + 1)
                            +:+ ": " +:+ str e)));;
  emit (Sleep 2).

Definition batch_loop (docs : list Document) : M unit :=
  for_each (range_step (length docs) BATCH_SIZE) (batch_body docs).

(** The script, top to bottom. *)
Definition main (dir : Directory) : M unit :=
  documents ← PyPDFDirectoryLoader_load dir;
  processed_docs ← dedup_loop documents [];
  let docs := split_documents env processed_docs in
  batch_loop docs;;
  emit (Stdout ("Loaded " +:+ pretty (length docs) +:+ " chunks from "
               +:+ pretty (length processed_docs) +:+ " unique PDFs.")).

End WithEnv.
End ExclDupes.

(** ** pages/2_Documents.py *)

Module Documents.
Section WithEnv.
Context (env : Env).

(** The body of the loop of [load_data] (lines 37-45): the chunk count of
    one registry row, [-1] when the query fails. *)
Definition chunk_count (file_name : string) : M Z :=
  try_except
    (count ← chunks_count env file_name; mret (Z.of_nat count))
    (fun e =>
       emit (StError ("Could not get chunk count for " +:+ file_name +:+ ": "
                      +:+ ExclDupes.str e));;
       mret (-1)%Z).

(** The body of the delete loop (lines 125-130) for one selected row. *)
Definition delete_row (row : RegRow) : M unit :=
  let file_name_to_delete := row_name row in
  emit (StInfo ("Deleting chunks for " +:+ file_name_to_delete +:+ "..."));;
  chunks_delete env file_name_to_delete;;
  emit (StInfo ("Deleting record for " +:+ file_name_to_delete +:+ "..."));;
  registry_delete env (row_id row).

(** The delete button (lines 121-134). *)
Definition delete_selected (selected_rows : list RegRow) (button : bool) : M unit :=
  if bool_decide (selected_rows ≠ []) then
    if button then
      for_each selected_rows delete_row;;
      emit (StSuccess "Rows and associated chunks deleted. The page will now refresh.");;
      emit (StOther "cache_data.clear");;
      emit (StOther "rerun")
    else mret tt
  else mret tt.

(** The page wraps everything in one [try]/[except Exception]. *)
Definition delete_page (selected_rows : list RegRow) (button : bool) : M unit :=
  try_except (delete_selected selected_rows button)
    (fun e =>
       emit (StError "An error occurred while loading the dashboard.");;
       emit (StException e)).

End WithEnv.
End Documents.

(** ** 1_Raymondo.py *)

Module Raymondo.

(** What [create_sql_agent] is given. *)
Record SqlExecutor := mkSqlExecutor {
  db_uri : string;
  include_tables : list string;
  agent_type : string
}.

(** What the document [AgentExecutor] is built from. *)
Record DocExecutor := mkDocExecutor {
  tool_name : string;
  table_name : string;
  query_name : string
}.

Definition DB_KEYS : list string := ["DB_USER"; "DB_PASSWORD"; "DB_HOST"; "DB_NAME"].

Definition DOCS_OPTION : string := "Internal Documents (PDFs)".
Definition CASE_OPTION : string := "Case Data (Completions)".

(** [st.secrets[k]] *)
Definition secret (secrets : gmap string string) (k : string) : M string := fun w =>
  match secrets !! k with
  | Some v => (Ok v, w)
  | None => (Raise (KeyError k), w)
  end.

(** [all(k in st.secrets for k in [...])] *)
Definition all_db_keys (secrets : gmap string string) : bool :=
  forallb (fun k => bool_decide (is_Some (secrets !! k))) DB_KEYS.

(** [radio_options] (lines 112-114) *)
Definition radio_options (is_sql_agent_available : bool) : list string :=
  [DOCS_OPTION] ++ (if is_sql_agent_available then [CASE_OPTION] else []).

Section WithEnv.
Context (env : Env).

Definition initialize_system (secrets : gmap string string)
  : M (option DocExecutor * option SqlExecutor) :=
  _ ← secret secrets "SUPABASE_URL";
  _ ← secret secrets "SUPABASE_SERVICE_KEY";
  let doc_executor :=
    Some (mkDocExecutor "internal_document_search" "documents" "match_documents") in
  sql_executor ←
    (if all_db_keys secrets then
       try_except
         (user ← secret secrets "DB_USER";
          password ← secret secrets "DB_PASSWORD";
          host ← secret secrets "DB_HOST";
          name ← secret secrets "DB_NAME";
          let db_uri := "postgresql://" +:+ user +:+ ":" +:+ password +:+ "@" +:+ host
                        +:+ ":5432/" +:+ name in
          external env (SqlConnect db_uri ["completions"])
                   (fun _ => Some (mkSqlExecutor db_uri ["completions"] "openai-tools")))
         (fun e =>
            emit (Stdout ("SQL Agent Initialization Error: " +:+ ExclDupes.str e));;
            mret None)
     else mret None);
  mret (doc_executor, sql_executor).

(** "Chat Input and Processing" (lines 130-157): [user_input] is what
    [st.chat_input] returned, [messages] the transcript so far; the
    result is the transcript afterwards. *)
Definition chat (doc_executor : option DocExecutor) (sql_executor : option SqlExecutor)
    (data_source : string) (user_input : option string)
    (messages : list (string * string)) : M (list (string * string)) :=
  match user_input with
  | None => mret messages
  | Some user_input =>
      if bool_decide (user_input = "") then mret messages
      else
        let messages := messages ++ [("user", user_input)] in
        emit (StOther user_input);;
        ai_response ←
          (if bool_decide (data_source = DOCS_OPTION) then
             match doc_executor with
             | None => emit (StError "Document Agent is not available.");; mret ""
             | Some _ =>
                 ai_response ← external env (DocInvoke user_input)
                                 (fun _ => doc_agent_output env user_input);
                 emit (StOther ai_response);;
                 mret ai_response
             end
           else if bool_decide (data_source = CASE_OPTION) then
             match sql_executor with
             | None => emit (StError "SQL Agent is not available.");; mret ""
             | Some _ =>
                 let prompted_input :=
                   "Based on the 'completions' table, answer the user's question: "
                   +:+ user_input in
                 ai_response ← external env (SqlInvoke prompted_input)
                                 (fun _ => sql_agent_output env prompted_input);
                 emit (StOther ai_response);;
                 mret ai_response
             end
           else mret "");
        if bool_decide (ai_response ≠ "") then
          mret (messages ++ [("assistant", ai_response)])
        else mret messages
  end.

(** One run of the page: [choice] is the index of the radio button the user
    picked among the options on offer (the first one when nothing else was
    picked). *)
Definition page (secrets : gmap string string) (choice : nat)
    (user_input : option string) (messages : list (string * string))
  : M (list string * list (string * string)) :=
  executors ← initialize_system secrets;
  let doc_executor := executors.1 in
  let sql_executor := executors.2 in
  let is_sql_agent_available := bool_decide (sql_executor ≠ None) in
  (if is_sql_agent_available then mret tt
   else emit (StWarning "**SQL Agent is unavailable.** To enable querying of 'Case Data', please ensure the required database secrets are correctly set in your configuration."));;
  let options := radio_options is_sql_agent_available in
  let data_source := default DOCS_OPTION (options !! choice) in
  messages' ← chat doc_executor sql_executor data_source user_input messages;
  mret (options, messages').

End WithEnv.

(** Calls that reach the structured store. *)
Definition is_sql_call (ev : Event) : Prop :=
  match ev with
  | Call (SqlConnect _ _) _ | Call (SqlInvoke _) _ => True
  | _ => False
  end.

End Raymondo.

(** ** The rest of the management page, pages/2_Documents.py *)

(** An external call the trace has no name for: it is counted and may
    raise like any other, and takes effect on the tables when it returns. *)
Definition remote {A} (env : Env)
    (effect : World -> list RegRow * list Document * nat)
    (answer : World -> A) : M A := fun w =>
  let n := calls w in
  if fails env n then
    (Raise (ExternalError n),
     mkWorld (uploaded_documents w) (documents w) (next_id w) (S n) (trace w))
  else
    let '(reg, docs, nid) := effect w in
    (Ok (answer w), mkWorld reg docs nid (S n) (trace w)).

Module DocumentsPage.

(** [order("id", desc=True)] *)
Definition by_id_desc (a b : RegRow) : Prop := row_id b <= row_id a.

Global Instance by_id_desc_dec a b : Decision (by_id_desc a b).
Proof. unfold by_id_desc. apply _. Defined.


Section WithEnv.
Context (env : Env).




(** [table("uploaded_documents").update(row_dict).eq("id", id).execute()] *)
Definition registry_update (id : nat) (row_dict : RegRow) : M unit :=
  remote env
    (fun w => ((fun r => if decide (row_id r = id) then row_dict else r)
                 <$> uploaded_documents w,
               documents w, next_id w))
    (fun _ => tt).

(** The save button (lines 108-115): [edited_df] is the grid's data, each
    row with the chunk count the page had added and now pops.  Of the
    columns written back, [created_at] is not part of [RegRow]. *)
Definition save_changes (edited_df : list (RegRow * Z)) (button : bool) : M unit :=
  if button then
    if bool_decide (edited_df ≠ []) then
      for_each edited_df (fun row => registry_update (row_id row.1) row.1);;
      emit (StSuccess "All changes saved to Supabase.");;
      emit (StOther "cache_data.clear")
    else mret tt
  else mret tt.

End WithEnv.
End DocumentsPage.

(** ** The set-up of the upload page, pages/4_Document_Uploader.py *)

Module UploaderPage.
Section WithEnv.
Context (env : Env).

(** [get_resources] (lines 25-38): the three secrets it reads, in order;
    building the clients from them makes no call. *)
Definition get_resources (secrets : gmap string string) : M unit :=
  _ ← Raymondo.secret secrets "SUPABASE_URL";
  _ ← Raymondo.secret secrets "SUPABASE_SERVICE_KEY";
  _ ← Raymondo.secret secrets "OPENAI_API_KEY";
  mret tt.

(** Section 4 of the page (lines 88-113), set-up included. *)
Definition page (secrets : gmap string string)
    (uploaded_files : list Uploader.UploadedFile) (button : bool) : M unit :=
  try_except
    (get_resources secrets;;
     if bool_decide (uploaded_files ≠ []) then
       emit (StOther "Files to be uploaded:");;
       for_each uploaded_files
         (fun file => emit (StOther ("- `" +:+ Uploader.name file +:+ "`")));;
       if button then
         for_each uploaded_files (Uploader.process_and_ingest_pdf env);;
         emit (StOther "balloons");;
         emit (StOther "All files have been processed!");;
         emit (StInfo "Navigate to the 'Document Management' page to see the updated chunk counts.")
       else ret tt
     else ret tt)
    (fun e =>
       emit (StError "An error occurred during the setup.");;
       emit (StException e)).

End WithEnv.
End UploaderPage.

(** ** ingest_in_db.py *)

Module IngestInDb.
Section WithEnv.
Context (env : Env).

(** The script, top to bottom: load, split, store; no registry, no check. *)
Definition main (dir : ExclDupes.Directory) : M unit :=
  documents ← ExclDupes.PyPDFDirectoryLoader_load env dir;
  let docs := split_documents env documents in
  add_documents env docs;;   (* SupabaseVectorStore.from_documents(docs, ...) *)
  emit (Stdout ("Loaded " +:+ pretty (length docs) +:+ " document chunks.")).

End WithEnv.
End IngestInDb.

(** ** embed_completions.py *)

Module EmbedCompletions.

(** [row[k]] on a row of the completions frame, the cells as text. *)
Definition item (row : gmap string string) (k : string) : result string :=
  match row !! k with
  | Some v => Ok v
  | None => Raise (KeyError k)
  end.

(** [row.get(k)], printed. *)
Definition get (row : gmap string string) (k : string) : string :=
  default "None" (row !! k).

Definition and_then {A B} (r : result A) (k : A -> result B) : result B :=
  match r with
  | Ok a => k a
  | Raise e => Raise e
  end.

(** The columns [row_to_summary] indexes, in the order it reads them. *)
Definition REQUIRED : list string :=
  ["Client"; "Adviser"; "Source"; "Product"; "Lender"; "Release"; "Interest Rate";
   "Proc Fee"; "Adv Fee"; "MF"].

Definition row_to_summary (row : gmap string string) : result string :=
  and_then (item row "Client") (fun client =>
  and_then (item row "Adviser") (fun adviser =>
  and_then (item row "Source") (fun source =>
  and_then (item row "Product") (fun product =>
  and_then (item row "Lender") (fun lender =>
  and_then (item row "Release") (fun release =>
  and_then (item row "Interest Rate") (fun rate =>
  let comp := get row "Comp Date" in
  let cancel := get row "Cancel Date" in
  and_then (item row "Proc Fee") (fun proc =>
  and_then (item row "Adv Fee") (fun adv =>
  and_then (item row "MF") (fun mf =>
  Ok ("Client: " +:+ client +:+ ", Adviser: " +:+ adviser +:+ ", Source: " +:+ source
      +:+ ", Product: " +:+ product +:+ ", Lender: " +:+ lender +:+ ", Release: £"
      +:+ release +:+ ", Interest Rate: " +:+ rate +:+ "%, Completion Date: " +:+ comp
      +:+ ", Cancelled: " +:+ cancel +:+ ", Proc Fee: £" +:+ proc +:+ ", Advice Fee: £"
      +:+ adv +:+ ", MF: " +:+ mf))))))))))).

End EmbedCompletions.

(** ** Concrete inputs *)

(** No call fails; the stand-in splitter keeps a page whole and yields
    nothing for a page without text. *)
Definition demo_env : Env :=
  mkEnv (fun _ => false) (fun s => if bool_decide (s = "") then [] else [s])
        (fun _ => "/tmp/tmpab12cd.pdf") (fun _ => "doc answer") (fun _ => "sql answer").

(** As [demo_env], but the external calls numbered in [bad] raise. *)
Definition faulty_env (bad : list nat) : Env :=
  mkEnv (fun n => bool_decide (n ∈ bad)) (split_text demo_env)
        (tmp_name demo_env) (doc_agent_output demo_env) (sql_agent_output demo_env).

Definition empty_world : World := mkWorld [] [] 1 0 [].

Definition page_of (text author : string) : Document :=
  mkDocument text {["author" := author]}.

Definition guide : Uploader.UploadedFile :=
  Uploader.mkUploadedFile "guide.pdf" [page_of "Two hundred words." "Ray"].

Definition other : Uploader.UploadedFile :=
  Uploader.mkUploadedFile "other.pdf" [page_of "Other text." "Ann"].

(** ** Notions used to state the properties *)

(** The world a computation leaves behind, and how it ended. *)
Definition final {A} (m : M A) (w : World) : World := (m w).2.
Definition outcome {A} (m : M A) (w : World) : result A := (m w).1.

(** [name] is a dedup key of the registry. *)
Definition registered (name : string) (w : World) : Prop :=
  name ∈ row_name <$> uploaded_documents w.

Global Instance registered_dec name w : Decision (registered name w).
Proof. unfold registered. apply _. Defined.

Definition rows_named (name : string) (w : World) : list RegRow :=
  filter (fun r => row_name r = name) (uploaded_documents w).

(** The chunks of a document name held by the vector store. *)
Definition chunks_of (name : string) (w : World) : list Document :=
  filter (has_source name) (documents w).

(** The external calls of a trace, oldest first. *)
Definition ext_calls (tr : list Event) : list (ExtCall * bool) :=
  omap (fun ev => match ev with Call c ok => Some (c, ok) | _ => None end) tr.

(** What was appended to a list. *)
Definition added {A} (before after : list A) : list A :=
  drop (length before) after.

(** A path with a directory part. *)
Fixpoint has_slash (s : string) : bool :=
  match s with
  | EmptyString => false
  | String c rest => Ascii.eqb c "/"%char || has_slash rest
  end.

(** The batches the script cuts [docs] into, in order. *)
Definition batches (docs : list Document) : list (list Document) :=
  (fun i => take ExclDupes.BATCH_SIZE (drop i docs))
    <$> ExclDupes.range_step (length docs) ExclDupes.BATCH_SIZE.

(** When the first of the batches [bs] is external call number [n]:
    the chunks that reach the store, and the calls that are made. *)
Fixpoint stored (env : Env) (n : nat) (bs : list (list Document)) : list Document :=
  match bs with
  | [] => []
  | b :: bs' => (if fails env n then [] else b) ++ stored env (S n) bs'
  end.

Fixpoint attempts (env : Env) (n : nat) (bs : list (list Document)) : list (ExtCall * bool) :=
  match bs with
  | [] => []
  | b :: bs' => (AddDocuments b, negb (fails env n)) :: attempts env (S n) bs'
  end.

(** The world once the folder has been loaded. *)
Definition after_load (w : World) : World :=
  mkWorld (uploaded_documents w) (documents w) (next_id w) (S (calls w))
          (trace w ++ [Call (LoaderLoad "documents") true]).

(** The calls the delete loop makes for the selected [rows] when the first
    of them is external call number [n]: for each row the chunks go first,
    and the registry row is touched only once that call has returned. *)
Fixpoint delete_calls (env : Env) (n : nat) (rows : list RegRow) : list (ExtCall * bool) :=
  match rows with
  | [] => []
  | row :: rest =>
      if fails env n then [(ChunksDelete (row_name row), false)]
      else (ChunksDelete (row_name row), true)
           :: (if fails env (S n) then [(RegistryDelete (row_id row), false)]
               else (RegistryDelete (row_id row), true)
                    :: delete_calls env (S (S n)) rest)
  end.

(** What one pass of the batch loop leaves in the trace when its call is
    external call number [n]. *)
Definition batch_events (env : Env) (docs : list Document) (i n : nat) : list Event :=
  let batch := take ExclDupes.BATCH_SIZE (drop i docs) in
  if fails env n then
    [Call (AddDocuments batch) false;
     LoggerWarning ("Failed to insert batch " +:+ pretty (i / ExclDupes.BATCH_SIZE + 1)
                    +:+ ": " +:+ ExclDupes.str (ExternalError n));
     Sleep 2]
  else
    [Call (AddDocuments batch) true;
     LoggerInfo ("Ingested batch " +:+ pretty (i / ExclDupes.BATCH_SIZE + 1) +:+ " with "
                 +:+ pretty (length batch) +:+ " chunks.");
     Sleep 2].

(** The world once the upload page has listed the files it was given. *)
Definition listed (files : list Uploader.UploadedFile) (w : World) : World :=
  final (emit (StOther "Files to be uploaded:");;
         for_each files (fun file => emit (StOther ("- `" +:+ Uploader.name file +:+ "`")))) w.

Definition with_events (w : World) (evs : list Event) : World :=
  mkWorld (uploaded_documents w) (documents w) (next_id w) (calls w) (trace w ++ evs).

(** Calls to the registry, and calls that store chunks. *)
Definition is_registry_call (c : ExtCall * bool) : Prop :=
  match c.1 with
  | RegistrySelect _ | RegistryInsert _ _ => True
  | _ => False
  end.

Definition is_store_call (c : ExtCall * bool) : Prop :=
  match c.1 with
  | AddDocuments _ => True
  | _ => False
  end.

(** Invariants of the two tables. *)

(** Every registry row has at least one chunk that names it. *)
Definition linked (w : World) : Prop :=
  forall r, r ∈ uploaded_documents w -> chunks_of (row_name r) w ≠ [].

(** No two registry rows share a name. *)
Definition unique_names (w : World) : Prop :=
  NoDup (row_name <$> uploaded_documents w).

(** The ids of the registry are distinct and below the next serial id. *)
Definition serial_ids (w : World) : Prop :=
  NoDup (row_id <$> uploaded_documents w)
  /\ forall r, r ∈ uploaded_documents w -> row_id r < next_id w.

(** The tables of a world, and computations that keep a property of it. *)
Definition tables (w : World) : list RegRow * list Document * nat :=
  (uploaded_documents w, documents w, next_id w).

Definition table_property (P : World -> Prop) : Prop :=
  forall w w', tables w = tables w' -> P w -> P w'.

Definition preserves {A} (P : World -> Prop) (m : M A) : Prop :=
  forall w, P w -> P (final m w).

(** A property of a world that only the registry decides. *)
Definition registry_keys (w : World) : Prop := unique_names w /\ serial_ids w.

(** ** Small runs *)

Example basename_of_path : ExclDupes.basename "documents/guide.pdf" = "guide.pdf".
Proof. reflexivity. Qed.

Example basename_of_name : ExclDupes.basename "guide.pdf" = "guide.pdf".
Proof. reflexivity. Qed.

Example range_step_250 : ExclDupes.range_step 250 100 = [0; 100; 200].
Proof. reflexivity. Qed.

Example range_step_200 : ExclDupes.range_step 200 100 = [0; 100].
Proof. reflexivity. Qed.

(** Scenario 1 of the specification: "guide.pdf" goes in, one chunk and one
    registry row come out. *)
Example upload_guide :
  let w := final (Uploader.process_and_ingest_pdf demo_env guide) empty_world in
  uploaded_documents w = [mkRegRow 1 "guide.pdf" "Ray"]
  /\ documents w = [set_source "guide.pdf" (page_of "Two hundred words." "Ray")]
  /\ trace w
     = [Call (RegistrySelect "guide.pdf") true;
        StInfo "Processing `guide.pdf`...";
        TmpWrite "/tmp/tmpab12cd.pdf";
        Call (LoaderLoad "/tmp/tmpab12cd.pdf") true;
        Call (AddDocuments [set_source "guide.pdf" (page_of "Two hundred words." "Ray")]) true;
        StInfo "  - Ingested 1 chunks for `guide.pdf`.";
        Call (RegistryInsert "guide.pdf" "Ray") true;
        StSuccess "Successfully processed and ingested `guide.pdf`.";
        OsRemove "/tmp/tmpab12cd.pdf"].
Proof. vm_compute. repeat split. Qed.

(** Scenario 3: deleting the row of "guide.pdf" empties both tables. *)
Example delete_guide :
  let w := final (Uploader.process_and_ingest_pdf demo_env guide) empty_world in
  let w' := final (Documents.delete_selected demo_env (uploaded_documents w) true) w in
  uploaded_documents w' = [] /\ documents w' = []
  /\ outcome (Documents.chunk_count demo_env "guide.pdf") w' = Ok 0%Z.
Proof. vm_compute. repeat split. Qed.

(** Scenario 5: the structured option asked for without an executor. *)
Example ask_without_sql_executor :
  let run := Raymondo.chat demo_env None None Raymondo.CASE_OPTION
               (Some "How many cases?") [] in
  outcome run empty_world = Ok [("user", "How many cases?")]
  /\ trace (final run empty_world)
     = [StOther "How many cases?"; StError "SQL Agent is not available."].
Proof. vm_compute. repeat split. Qed.

(** ** Basic facts about the monad and the stores *)

Ltac unfold_m :=
  unfold final, outcome, mbind, M_bind, bind, mret, M_ret, ret, emit,
         try_except, try_finally in *.

Lemma added_app {A} (l k : list A) : added l (l ++ k) = k.
Proof. unfold added. by rewrite drop_app_length. Qed.

Lemma bind_unfold {A B} (k : A -> M B) (m : M A) (w : World) :
  (m ≫= k) w
  = match m w with
    | (Ok a, w') => k a w'
    | (Raise e, w') => (Raise e, w')
    end.
Proof. reflexivity. Qed.

Lemma added_same {A} (l : list A) : added l l = [].
Proof. unfold added. apply drop_all. Qed.

Lemma registered_select name w :
  registered name w <-> filter (fun r => row_name r = name) (uploaded_documents w) ≠ [].
Proof.
  unfold registered. rewrite list_elem_of_fmap. split.
  - intros (r & -> & Hin) Hnil.
    assert (r ∈ filter (fun r' => row_name r' = row_name r) (uploaded_documents w)) as Hr
      by (apply list_elem_of_filter; done).
    rewrite Hnil in Hr. by apply not_elem_of_nil in Hr.
  - intros Hne. destruct (filter _ _) as [|r l] eqn:E; [done|].
    assert (r ∈ filter (fun r' => row_name r' = name) (uploaded_documents w)) as Hr
      by (rewrite E; left).
    apply list_elem_of_filter in Hr as [? ?]. eauto.
Qed.

Lemma nonempty_length {A} (l : list A) : l ≠ [] -> 0 < length l.
Proof. destruct l; [congruence|simpl; lia]. Qed.

Lemma rows_named_nil name w : ¬ registered name w -> rows_named name w = [].
Proof.
  intros Hn. unfold rows_named.
  destruct (decide (filter (fun r => row_name r = name) (uploaded_documents w) = []))
    as [E|E]; [done|].
  by apply registered_select in E.
Qed.

Lemma set_source_has_source v d : has_source v (set_source v d).
Proof. unfold has_source, set_source. simpl. apply lookup_insert_eq. Qed.

Lemma set_source_twice v u d : set_source v (set_source u d) = set_source v d.
Proof. unfold set_source. simpl. by rewrite insert_insert_eq. Qed.

Lemma set_source_stamp v path (pdf : Pdf) : set_source v <$> stamp path pdf = set_source v <$> pdf.
Proof.
  unfold stamp. rewrite <- list_fmap_compose. apply list_fmap_ext.
  intros i d _. simpl. apply set_source_twice.
Qed.

Section SplitFacts.
Context (env : Env).

Lemma split_documents_app l k :
  split_documents env (l ++ k) = split_documents env l ++ split_documents env k.
Proof. unfold split_documents. by rewrite fmap_app, join_app. Qed.

Lemma split_documents_cons d l :
  split_documents env (d :: l) = split_document env d ++ split_documents env l.
Proof. reflexivity. Qed.

(** A chunk carries the metadata of the page it was cut from. *)
Lemma split_document_metadata d c :
  c ∈ split_document env d -> metadata c = metadata d.
Proof.
  unfold split_document. rewrite list_elem_of_fmap. by intros (t & -> & _).
Qed.

Lemma split_documents_metadata l c :
  c ∈ split_documents env l -> exists d, d ∈ l /\ metadata c = metadata d.
Proof.
  unfold split_documents. rewrite list_elem_of_join.
  intros (cs & Hc & Hcs). apply list_elem_of_fmap in Hcs as (d & -> & Hd).
  exists d. split; [done|]. by apply split_document_metadata.
Qed.

Lemma split_documents_has_source v (pdf : Pdf) :
  Forall (has_source v) (split_documents env (set_source v <$> pdf)).
Proof.
  apply Forall_forall. intros c Hc.
  apply split_documents_metadata in Hc as (d & Hd & Hm).
  apply list_elem_of_fmap in Hd as (d0 & -> & _).
  unfold has_source. rewrite Hm. apply set_source_has_source.
Qed.

(** Whether a page yields chunks depends on its text only. *)
Lemma split_documents_nil l :
  split_documents env l = [] <-> Forall (fun d => split_text env (page_content d) = []) l.
Proof.
  induction l as [|d l IH].
  - split; [constructor | done].
  - rewrite split_documents_cons. rewrite Forall_cons. rewrite <- IH.
    unfold split_document. split.
    + intros H. apply app_eq_nil in H as [H1 H2]. split; [|done].
      by apply fmap_nil_inv in H1.
    + intros [H1 H2]. rewrite H1, H2. done.
Qed.

Lemma split_documents_set_source_nil v l :
  split_documents env (set_source v <$> l) = [] <-> split_documents env l = [].
Proof.
  rewrite !split_documents_nil. rewrite Forall_fmap. done.
Qed.

End SplitFacts.

(** ** The uploader, path by path *)

Section UploaderFacts.
Context (env : Env).
Import Uploader.

Ltac run_uploader :=
  unfold process_and_ingest_pdf, registry_select, registry_insert, add_documents,
         PyPDFLoader_load, named_temporary_file, external; unfold_m; simpl;
  repeat (match goal with
          | |- context [fails env ?n] => destruct (fails env n) eqn:?; simpl
          | |- context [bool_decide ?P] => destruct (bool_decide_reflect P); simpl
          end);
  rewrite ?set_source_stamp in *.

(** A duplicate is skipped: one registry lookup, then the warning. *)
Lemma uploader_skip (f : UploadedFile) (w : World) :
  registered (name f) w ->
  let w' := final (process_and_ingest_pdf env f) w in
  uploaded_documents w' = uploaded_documents w
  /\ documents w' = documents w
  /\ ext_calls (added (trace w) (trace w'))
     = [(RegistrySelect (name f), negb (fails env (calls w)))]
  /\ (fails env (calls w) = false ->
      outcome (process_and_ingest_pdf env f) w = Ok tt
      /\ added (trace w) (trace w')
         = [Call (RegistrySelect (name f)) true;
            StWarning ("Skipping duplicate file: `" +:+ name f +:+ "`")]).
Proof.
  intros Hreg. apply registered_select in Hreg.
  run_uploader; try done;
    rewrite <- ?app_assoc, ?added_app; simpl; done.
Qed.

(** Whatever fails, every chunk the uploader stores names the file. *)
Lemma uploader_linkage (f : UploadedFile) (w : World) :
  exists new,
    documents (final (process_and_ingest_pdf env f) w) = documents w ++ new
    /\ Forall (has_source (name f)) new.
Proof.
  run_uploader;
    try (exists []; rewrite app_nil_r; split; [done|constructor]);
    eexists; (split; [reflexivity|]); apply split_documents_has_source.
Qed.

(** The registry changes only on the path that stored the chunks first. *)
Lemma uploader_store_before_register (f : UploadedFile) (w : World) :
  let w' := final (process_and_ingest_pdf env f) w in
  let pages := set_source (name f) <$> getbuffer f in
  let docs := split_documents env pages in
  uploaded_documents w' ≠ uploaded_documents w ->
  ¬ registered (name f) w
  /\ docs ≠ []
  /\ documents w' = documents w ++ docs
  /\ uploaded_documents w'
     = uploaded_documents w ++ [mkRegRow (next_id w) (name f) (first_author pages)]
  /\ ext_calls (added (trace w) (trace w'))
     = [(RegistrySelect (name f), true);
        (LoaderLoad (tmp_name env (S (calls w))), true);
        (AddDocuments docs, true);
        (RegistryInsert (name f) (first_author pages), true)].
Proof.
  run_uploader; intros Hreg; try done.
  split; [by rewrite registered_select; intros ?|].
  repeat split; try done.
  rewrite <- ?app_assoc, ?added_app; simpl; done.
Qed.

(** X23.  No chunks, no registry row: when the text of an uploaded file
    yields no chunk, [process_and_ingest_pdf] leaves both tables as they
    were, whichever calls fail; when the name is not registered and the
    lookup and the loader return, it ends normally after the warning "Could
    not extract any text". *)
Lemma uploader_empty_chunks (f : UploadedFile) (w : World) :
  split_documents env (getbuffer f) = [] ->
  let w' := final (process_and_ingest_pdf env f) w in
  uploaded_documents w' = uploaded_documents w
  /\ documents w' = documents w
  /\ (¬ registered (name f) w ->
      fails env (calls w) = false -> fails env (S (calls w)) = false ->
      outcome (process_and_ingest_pdf env f) w = Ok tt
      /\ StWarning ("Could not extract any text from `" +:+ name f +:+ "`. Skipping.")
         ∈ added (trace w) (trace w')).
Proof.
  intros Hnil. apply (split_documents_set_source_nil env (name f)) in Hnil.
  run_uploader; try done; (split; [done|split; [done|]]); intros Hreg ? ?; try done.
  all: try (exfalso; apply Hreg, registered_select; done).
  split; [done|]. rewrite <- ?app_assoc, ?added_app. set_solver.
Qed.

End UploaderFacts.

(** ** Paths *)

Import ExclDupes.

Lemma has_slash_app s t : has_slash (s +:+ t) = has_slash s || has_slash t.
Proof.
  induction s as [|c s IH]; [done|].
  change (String c s +:+ t) with (String c (s +:+ t)).
  cbn [has_slash]. rewrite IH. by rewrite orb_assoc.
Qed.

Lemma basename_from_no_slash p : forall cur,
  has_slash cur = false -> has_slash (basename_from cur p) = false.
Proof.
  induction p as [|c p IH]; intros cur Hcur; simpl; [done|].
  destruct (Ascii.eqb c "/") eqn:E; apply IH; [done|].
  rewrite has_slash_app, Hcur. simpl. by rewrite E.
Qed.

Lemma basename_no_slash p : has_slash (basename p) = false.
Proof. by apply basename_from_no_slash. Qed.

Lemma string_app_assoc (s t u : string) : (s +:+ t) +:+ u = s +:+ (t +:+ u).
Proof.
  induction s as [|c s IH]; [done|].
  change (String c ((s +:+ t) +:+ u) = String c (s +:+ (t +:+ u))). by rewrite IH.
Qed.

Lemma string_app_nil_r (s : string) : s +:+ "" = s.
Proof.
  induction s as [|c s IH]; [done|].
  change (String c (s +:+ "") = String c s). by rewrite IH.
Qed.

Lemma basename_from_plain p : forall cur,
  has_slash p = false -> basename_from cur p = cur +:+ p.
Proof.
  induction p as [|c p IH]; intros cur Hp; cbn [basename_from has_slash] in *.
  - by rewrite string_app_nil_r.
  - apply orb_false_iff in Hp as [Hc Hp]. rewrite Hc.
    rewrite IH by done. by rewrite string_app_assoc.
Qed.

(** A bare file name is its own basename. *)
Lemma basename_plain p : has_slash p = false -> basename p = p.
Proof. intros Hp. unfold basename. by rewrite basename_from_plain. Qed.

(** The folder prefix is dropped. *)
Lemma basename_documents f : basename ("documents/" +:+ f) = basename f.
Proof. reflexivity. Qed.

Lemma documents_path_has_slash f : has_slash ("documents/" +:+ f) = true.
Proof. reflexivity. Qed.

(** ** The script, loop by loop *)

Section ScriptFacts.
Context (env : Env).

Lemma registered_insert n m id a w reg' :
  reg' = uploaded_documents w ++ [mkRegRow id m a] ->
  forall w', uploaded_documents w' = reg' ->
  (registered n w' <-> registered n w \/ m = n)
  /\ rows_named n w' = rows_named n w ++ (if decide (m = n) then [mkRegRow id m a] else []).
Proof.
  intros -> w' Hw'. unfold registered, rows_named. rewrite Hw'. split.
  - rewrite fmap_app, elem_of_app. simpl. rewrite list_elem_of_singleton.
    split; (intros [?|?]; [by left|by right]).
  - rewrite filter_app. f_equal.
Qed.

(** The dedup loop, seen from one file name [n]. *)
Lemma dedup_loop_named n docs : forall acc w r w',
  dedup_loop env docs acc w = (r, w') ->
  documents w' = documents w
  /\ (registered n w ->
      registered n w' /\ rows_named n w' = rows_named n w
      /\ forall res, r = Ok res ->
           filter (fun d => file_name_of d = n) res
           = filter (fun d => file_name_of d = n) acc)
  /\ (¬ registered n w -> forall res, r = Ok res ->
      match filter (fun d => file_name_of d = n) docs with
      | [] => filter (fun d => file_name_of d = n) res
              = filter (fun d => file_name_of d = n) acc
              /\ rows_named n w' = []
      | d :: _ => filter (fun d => file_name_of d = n) res
                  = filter (fun d => file_name_of d = n) acc ++ [d]
                  /\ exists id, rows_named n w'
                       = [mkRegRow id n (metadata_get d "author" "Unknown")]
      end).
Proof.
  induction docs as [|x rest IH]; intros acc w r w' Hrun.
  - cbn in Hrun. injection Hrun as <- <-.
    split; [done|]. split.
    + intros Hreg. repeat split; try done. by intros res [= <-].
    + intros Hn res [= <-]. cbn. split; [done|]. by apply rows_named_nil.
  - cbn [dedup_loop] in Hrun.
    unfold registry_select, registry_insert, external in Hrun. unfold_m.
    destruct (fails env (calls w)) eqn:Hf0.
    { simpl in Hrun. injection Hrun as <- <-. simpl.
      split; [done|]. split; [|done]. intros Hreg. repeat split; done. }
    simpl in Hrun.
    destruct (bool_decide_reflect
      (filter (fun r => row_name r = file_name_of x) (uploaded_documents w) ≠ []
       ∧ 0 < length (filter (fun r => row_name r = file_name_of x) (uploaded_documents w))))
      as [[Hdup _]|Hnew].
    + (* skipped as a duplicate *)
      apply registered_select in Hdup.
      apply IH in Hrun as (Hdocs & Hyes & Hno). simpl in *.
      split; [done|]. split.
      * intros Hreg. by apply Hyes.
      * intros Hn res Hres. specialize (Hno Hn res Hres).
        rewrite filter_cons. destruct (decide (file_name_of x = n)) as [E|E]; [|done].
        subst n. done.
    + (* first sight of this name: registered, kept *)
      assert (¬ registered (file_name_of x) w) as Hfresh.
      { intros Hreg%registered_select. apply Hnew. split; [done|].
        by apply nonempty_length. }
      simpl in Hrun.
      destruct (fails env (S (calls w))) eqn:Hf1.
      { simpl in Hrun. injection Hrun as <- <-. simpl.
        split; [done|]. split; [|done]. intros Hreg. repeat split; done. }
      simpl in Hrun.
      match type of Hrun with dedup_loop _ _ _ ?t = _ => set (w1 := t) in * end.
      destruct (registered_insert n (file_name_of x) (next_id w)
                  (metadata_get x "author" "Unknown") w _ eq_refl w1 eq_refl)
        as [Hreg1 Hrows1].
      apply (IH _ w1) in Hrun as (Hdocs & Hyes & Hno).
      split; [done|]. split.
      * intros Hreg.
        destruct (decide (file_name_of x = n)) as [E|E]; [by subst n|].
        rewrite app_nil_r in Hrows1.
        destruct Hyes as (? & ? & Hres); [by apply Hreg1; left|].
        repeat split; [done|congruence|].
        intros res Hr. rewrite (Hres res Hr), filter_app, filter_cons, filter_nil.
        rewrite decide_False by done. by rewrite app_nil_r.
      * intros Hn res Hr. rewrite filter_cons.
        destruct (decide (file_name_of x = n)) as [E|E].
        -- destruct Hyes as (? & Hrows & Hres); [by apply Hreg1; right|].
           rewrite (Hres res Hr), filter_app, filter_cons, filter_nil.
           rewrite decide_True by done. split; [done|].
           exists (next_id w). rewrite Hrows, Hrows1.
           rewrite (rows_named_nil n w Hn). by subst n.
        -- rewrite app_nil_r in Hrows1.
           assert (¬ registered n w1) as Hn1 by (rewrite Hreg1; intros [?|?]; done).
           specialize (Hno Hn1 res Hr).
           rewrite filter_app, filter_cons, filter_nil in Hno.
           rewrite decide_False in Hno by done. by rewrite app_nil_r in Hno.
Qed.

(** Where the kept pages and the new registry rows come from. *)
Lemma dedup_loop_origin docs : forall acc w r w',
  dedup_loop env docs acc w = (r, w') ->
  (exists rows,
     uploaded_documents w' = uploaded_documents w ++ rows
     /\ Forall (fun row => exists d, d ∈ docs /\ row_name row = file_name_of d) rows)
  /\ (forall res, r = Ok res ->
      exists kept, res = acc ++ kept /\ Forall (fun d => d ∈ docs) kept).
Proof.
  induction docs as [|x rest IH]; intros acc w r w' Hrun.
  - cbn in Hrun. injection Hrun as <- <-. split.
    + exists []. by rewrite app_nil_r.
    + intros res [= <-]. exists []. by rewrite app_nil_r.
  - cbn [dedup_loop] in Hrun.
    unfold registry_select, registry_insert, external in Hrun. unfold_m.
    destruct (fails env (calls w)) eqn:Hf0.
    { simpl in Hrun. injection Hrun as <- <-. simpl. split; [|done].
      exists []. by rewrite app_nil_r. }
    simpl in Hrun.
    destruct (bool_decide _).
    + apply IH in Hrun as ((rows & Hrows & Hall) & Hres). simpl in *. split.
      * exists rows. split; [done|].
        eapply Forall_impl; [exact Hall|]. intros row (d & Hd & E).
        exists d. split; [by right|done].
      * intros res Hr. destruct (Hres res Hr) as (kept & -> & Hk).
        exists kept. split; [done|].
        eapply Forall_impl; [exact Hk|]. intros d Hd. by right.
    + simpl in Hrun.
      destruct (fails env (S (calls w))) eqn:Hf1.
      { simpl in Hrun. injection Hrun as <- <-. simpl. split; [|done].
        exists []. by rewrite app_nil_r. }
      simpl in Hrun.
      apply IH in Hrun as ((rows & Hrows & Hall) & Hres). simpl in *. split.
      * eexists (_ :: rows). split.
        -- rewrite Hrows, <- app_assoc. reflexivity.
        -- constructor.
           ++ exists x. split; [by left|done].
           ++ eapply Forall_impl; [exact Hall|]. intros row (d & Hd & E).
              exists d. split; [by right|done].
      * intros res Hr. destruct (Hres res Hr) as (kept & -> & Hk).
        exists (x :: kept). split; [by rewrite <- app_assoc|].
        constructor; [by left|].
        eapply Forall_impl; [exact Hk|]. intros d Hd. by right.
Qed.

Lemma ext_calls_app t u : ext_calls (t ++ u) = ext_calls t ++ ext_calls u.
Proof. apply omap_app. Qed.

Lemma for_each_cons {A} (x : A) l (body : A -> M unit) w :
  for_each (x :: l) body w
  = match body x w with
    | (Ok _, w1) => for_each l body w1
    | (Raise e, w1) => (Raise e, w1)
    end.
Proof. reflexivity. Qed.

(** One batch: the call is made, a failure is caught and logged. *)
Lemma batch_body_run docs i w :
  batch_body env docs i w
  = (Ok tt,
     mkWorld (uploaded_documents w)
             (documents w ++ (if fails env (calls w) then []
                              else take BATCH_SIZE (drop i docs)))
             (next_id w) (S (calls w)) (trace w ++ batch_events env docs i (calls w))).
Proof.
  unfold batch_body, batch_events, add_documents, external. unfold_m.
  destruct (fails env (calls w)); simpl;
    rewrite <- ?app_assoc, ?(app_nil_r (documents w)); reflexivity.
Qed.

Lemma ext_calls_batch_events docs i n :
  ext_calls (batch_events env docs i n)
  = [(AddDocuments (take BATCH_SIZE (drop i docs)), negb (fails env n))].
Proof. unfold batch_events. by destruct (fails env n). Qed.

(** The batch loop over any list of start indices. *)
Lemma batch_loop_indices docs idxs : forall w,
  let bs := (fun i => take BATCH_SIZE (drop i docs)) <$> idxs in
  let w' := final (for_each idxs (batch_body env docs)) w in
  outcome (for_each idxs (batch_body env docs)) w = Ok tt
  /\ uploaded_documents w' = uploaded_documents w
  /\ documents w' = documents w ++ stored env (calls w) bs
  /\ calls w' = calls w + length bs
  /\ exists evs, trace w' = trace w ++ evs
               /\ ext_calls evs = attempts env (calls w) bs
               /\ forall k i, idxs !! k = Some i -> fails env (calls w + k) = true ->
                    LoggerWarning ("Failed to insert batch " +:+ pretty (i / BATCH_SIZE + 1)
                                   +:+ ": " +:+ str (ExternalError (calls w + k))) ∈ evs.
Proof.
  induction idxs as [|i idxs IH]; intros w.
  - unfold final, outcome. simpl. rewrite app_nil_r. repeat split; [lia|].
    exists []. by rewrite app_nil_r.
  - unfold final, outcome in *. rewrite for_each_cons, batch_body_run.
    match goal with |- context [for_each idxs _ ?w1] => specialize (IH w1) end.
    simpl in IH.
    destruct IH as (Hout & Hreg & Hdocs & Hcalls & evs & Htr & Hevs & Hwarn).
    simpl.
    repeat split; [done|done|by rewrite Hdocs, <- app_assoc| |].
    { rewrite Hcalls. rewrite !length_fmap. simpl. lia. }
    exists (batch_events env docs i (calls w) ++ evs).
    split; [by rewrite Htr, <- app_assoc|]. split.
    + by rewrite ext_calls_app, ext_calls_batch_events, Hevs.
    + intros k j Hk Hf. apply elem_of_app. destruct k as [|k]; simpl in Hk.
      * injection Hk as ->. left. rewrite Nat.add_0_r in *.
        unfold batch_events. rewrite Hf. set_solver.
      * right. replace (calls w + S k) with (S (calls w) + k) in * by lia.
        by apply Hwarn.
Qed.

Lemma batch_loop_run docs w :
  let w' := final (batch_loop env docs) w in
  outcome (batch_loop env docs) w = Ok tt
  /\ uploaded_documents w' = uploaded_documents w
  /\ documents w' = documents w ++ stored env (calls w) (batches docs)
  /\ calls w' = calls w + length (batches docs)
  /\ exists evs, trace w' = trace w ++ evs
               /\ ext_calls evs = attempts env (calls w) (batches docs)
               /\ forall k i, range_step (length docs) BATCH_SIZE !! k = Some i ->
                    fails env (calls w + k) = true ->
                    LoggerWarning ("Failed to insert batch " +:+ pretty (i / BATCH_SIZE + 1)
                                   +:+ ": " +:+ str (ExternalError (calls w + k))) ∈ evs.
Proof. apply batch_loop_indices. Qed.

(** Every stored chunk was in one of the batches. *)
Lemma stored_elem n bs d :
  d ∈ stored env n bs -> exists b, b ∈ bs /\ d ∈ b.
Proof.
  revert n. induction bs as [|b bs IH]; intros n; simpl.
  - by intros ?%not_elem_of_nil.
  - rewrite elem_of_app. intros [Hd|Hd].
    + destruct (fails env n); [by apply not_elem_of_nil in Hd|].
      exists b. split; [by left|done].
    + apply IH in Hd as (b' & ? & ?). exists b'. split; [by right|done].
Qed.

Lemma batches_elem docs b d : b ∈ batches docs -> d ∈ b -> d ∈ docs.
Proof.
  unfold batches. rewrite list_elem_of_fmap. intros (i & -> & _) Hd.
  by apply subseteq_take, subseteq_drop in Hd.
Qed.

Lemma stored_batches_elem n docs d : d ∈ stored env n (batches docs) -> d ∈ docs.
Proof. intros (b & Hb & Hd)%stored_elem. by eapply batches_elem. Qed.

Lemma stored_no_failure n bs :
  (forall k, fails env k = false) -> stored env n bs = mjoin bs.
Proof.
  intros Hok. revert n. induction bs as [|b bs IH]; intros n; simpl; [done|].
  by rewrite Hok, IH.
Qed.

End ScriptFacts.

(** The batches cover the chunks, in order. *)
Lemma join_slices {A} (B : nat) (l : list A) : forall m,
  length l <= m * B ->
  mjoin ((fun k => take B (drop (k * B) l)) <$> seq 0 m) = l.
Proof.
  intros m. revert l. induction m as [|m IH]; intros l Hlen.
  - destruct l; simpl in *; try done; lia.
  - rewrite <- cons_seq, <- fmap_S_seq. rewrite fmap_cons, <- list_fmap_compose.
    simpl. rewrite drop_0.
    rewrite <- (take_drop B l) at 2. f_equal.
    rewrite <- (IH (drop B l)) by (rewrite length_drop; lia).
    f_equal. apply list_fmap_ext. intros i k _. simpl.
    rewrite drop_drop. repeat f_equal; lia.
Qed.

Lemma join_batches docs : mjoin (batches docs) = docs.
Proof.
  unfold batches, range_step. rewrite <- list_fmap_compose.
  apply join_slices. unfold BATCH_SIZE.
  pose proof (Nat.div_mod_eq (length docs + 100 - 1) 100) as E.
  pose proof (Nat.mod_upper_bound (length docs + 100 - 1) 100) as U.
  lia.
Qed.

Section ScriptRuns.
Context (env : Env).

(** The script as a whole: the loader, then the dedup loop, then the
    batches; only the first two can end it early. *)
Lemma main_cases dir w :
  let w' := final (main env dir) w in
  if fails env (calls w) then
    outcome (main env dir) w = Raise (ExternalError (calls w))
    /\ uploaded_documents w' = uploaded_documents w
    /\ documents w' = documents w
  else
    match dedup_loop env (directory_pages dir) [] (after_load w) with
    | (Raise e, w1) => main env dir w = (Raise e, w1)
    | (Ok processed_docs, w1) =>
        let docs := split_documents env processed_docs in
        outcome (main env dir) w = Ok tt
        /\ uploaded_documents w' = uploaded_documents w1
        /\ documents w' = documents w1 ++ stored env (calls w1) (batches docs)
        /\ exists evs, trace w' = trace w1 ++ evs
                     /\ ext_calls evs = attempts env (calls w1) (batches docs)
    end.
Proof.
  unfold main, PyPDFDirectoryLoader_load, external, after_load. unfold_m. simpl.
  destruct (fails env (calls w)); simpl; [done|].
  destruct (dedup_loop env (directory_pages dir) [] _) as [[processed|e] w1]; [|done].
  pose proof (batch_loop_run env (split_documents env processed) w1) as Hb.
  unfold final, outcome in Hb.
  destruct (batch_loop env (split_documents env processed) w1) as [r w2].
  simpl in Hb. destruct Hb as (-> & Hreg & Hdocs & Hcalls & evs & Htr & Hevs & _). simpl.
  repeat split; try done.
  eexists. split; [by rewrite Htr, <- app_assoc|].
  rewrite ext_calls_app, Hevs. simpl. by rewrite app_nil_r.
Qed.

Lemma file_name_of_metadata c d : metadata c = metadata d -> file_name_of c = file_name_of d.
Proof. unfold file_name_of, metadata_get. by intros ->. Qed.

Lemma filter_nil_Forall {A} (P : A -> Prop) `{!forall x, Decision (P x)} (l : list A) :
  filter P l = [] -> Forall (fun x => ¬ P x) l.
Proof.
  intros Hnil. apply Forall_forall. intros x Hx HP.
  by apply (filter_nil_not_elem_of P l x).
Qed.

(** The dedup loop only ever extends the trace, and logs every skip. *)
Lemma dedup_loop_skip_logged n docs : forall acc w res w',
  registered n w ->
  dedup_loop env docs acc w = (Ok res, w') ->
  exists evs, trace w' = trace w ++ evs
    /\ ((exists d, d ∈ docs /\ file_name_of d = n) ->
        LoggerInfo ("Skipping duplicate: " +:+ n) ∈ evs).
Proof.
  induction docs as [|x rest IH]; intros acc w res w' Hreg Hrun.
  - cbn in Hrun. injection Hrun as <- <-. exists []. rewrite app_nil_r.
    split; [done|]. by intros (d & ?%not_elem_of_nil & _).
  - cbn [dedup_loop] in Hrun.
    unfold registry_select, registry_insert, external in Hrun. unfold_m.
    destruct (fails env (calls w)) eqn:Hf0; [done|]. simpl in Hrun.
    destruct (bool_decide_reflect
      (filter (fun r => row_name r = file_name_of x) (uploaded_documents w) ≠ []
       ∧ 0 < length (filter (fun r => row_name r = file_name_of x) (uploaded_documents w))))
      as [_|Hnew].
    + apply IH in Hrun as (evs & Htr & Hlog); [|done]. simpl in Htr.
      eexists. split; [by rewrite Htr, <- !app_assoc|].
      intros (d & Hd & Hn).
      apply elem_of_cons in Hd as [->|Hd].
      * rewrite <- Hn. apply elem_of_app; right. apply elem_of_app; left.
        apply list_elem_of_singleton. reflexivity.
      * do 2 (apply elem_of_app; right). apply Hlog. eauto.
    + simpl in Hrun.
      destruct (fails env (S (calls w))) eqn:Hf1; [done|]. simpl in Hrun.
      assert (file_name_of x ≠ n) as Hx.
      { intros E. subst n. apply Hnew. apply registered_select in Hreg.
        split; [done|by apply nonempty_length]. }
      apply IH in Hrun as (evs & Htr & Hlog).
      * simpl in Htr. eexists. split; [by rewrite Htr, <- !app_assoc|].
        intros (d & Hd & Hn).
        apply elem_of_cons in Hd as [->|Hd]; [done|].
        do 2 (apply elem_of_app; right). apply Hlog. eauto.
      * unfold registered in *. simpl. rewrite fmap_app. apply elem_of_app. by left.
Qed.

(** A registered name is left alone by the script: its registry rows stay,
    no chunk of its pages is stored, and each of its pages is logged as
    skipped. *)
Lemma script_skip n dir w :
  registered n w ->
  let w' := final (main env dir) w in
  rows_named n w' = rows_named n w
  /\ (exists new, documents w' = documents w ++ new
                /\ Forall (fun d => file_name_of d ≠ n) new)
  /\ (outcome (main env dir) w = Ok tt ->
      (exists d, d ∈ directory_pages dir /\ file_name_of d = n) ->
      LoggerInfo ("Skipping duplicate: " +:+ n) ∈ added (trace w) (trace w')).
Proof.
  intros Hreg. pose proof (main_cases dir w) as Hmain. simpl in Hmain.
  destruct (fails env (calls w)) eqn:Hf.
  { destruct Hmain as (Hout & Hr & Hd). simpl. unfold rows_named. rewrite Hr, Hd.
    split; [done|]. split; [exists []; by rewrite app_nil_r|].
    intros Hok. by rewrite Hout in Hok. }
  assert (registered n (after_load w)) as Hreg0 by done.
  destruct (dedup_loop env (directory_pages dir) [] (after_load w))
    as [[processed|e] w1] eqn:Hrun.
  - destruct (dedup_loop_named env n _ _ _ _ _ Hrun) as (Hdocs & Hyes & _).
    destruct (Hyes Hreg0) as (_ & Hrows & Hres).
    specialize (Hres processed eq_refl). rewrite filter_nil in Hres.
    apply filter_nil_Forall in Hres.
    destruct Hmain as (Hout & Hr & Hd & evs & Htr & _). simpl.
    split; [unfold rows_named in *; by rewrite Hr|]. split.
    + eexists. split; [rewrite Hd, Hdocs; reflexivity|].
      apply Forall_forall. intros c Hc%stored_batches_elem.
      apply split_documents_metadata in Hc as (d & Hd' & Hm).
      rewrite (file_name_of_metadata c d Hm).
      rewrite Forall_forall in Hres. by apply Hres.
    + intros _ Hpage.
      destruct (dedup_loop_skip_logged n _ _ _ _ _ Hreg0 Hrun) as (evs0 & Htr0 & Hlog).
      rewrite Htr, Htr0. simpl. rewrite <- !app_assoc, added_app.
      apply elem_of_app; right. apply elem_of_app; left. by apply Hlog.
  - destruct (dedup_loop_named env n _ _ _ _ _ Hrun) as (Hdocs & Hyes & _).
    destruct (Hyes Hreg0) as (_ & Hrows & _).
    unfold final, outcome. rewrite Hmain. simpl.
    split; [done|]. split; [exists []; by rewrite app_nil_r|]. done.
Qed.

End ScriptRuns.

Section ScriptLinkage.
Context (env : Env).

Lemma directory_pages_source dir d :
  d ∈ directory_pages dir ->
  exists f, metadata d !! "source" = Some ("documents/" +:+ f).
Proof.
  unfold directory_pages. rewrite list_elem_of_join.
  intros (ps & Hd & Hps). apply list_elem_of_fmap in Hps as (f & -> & _).
  unfold stamp in Hd. apply list_elem_of_fmap in Hd as (p & -> & _).
  exists f.1. apply set_source_has_source.
Qed.

(** Whatever the folder holds and whatever fails: no chunk the script
    stores carries the name the script registered; the chunk's [source] is
    the path below the folder, the registry key is its basename. *)
Lemma script_source_is_not_the_key dir w :
  let w' := final (main env dir) w in
  exists rows new,
    uploaded_documents w' = uploaded_documents w ++ rows
    /\ documents w' = documents w ++ new
    /\ forall row d, row ∈ rows -> d ∈ new -> ¬ has_source (row_name row) d.
Proof.
  pose proof (main_cases env dir w) as Hmain. simpl in Hmain. simpl.
  destruct (fails env (calls w)) eqn:Hf.
  { destruct Hmain as (_ & Hr & Hd). exists [], []. rewrite !app_nil_r.
    repeat split; try done. by intros row d ?%not_elem_of_nil. }
  destruct (dedup_loop env (directory_pages dir) [] (after_load w))
    as [[processed|e] w1] eqn:Hrun.
  - destruct (dedup_loop_named env "" _ _ _ _ _ Hrun) as (Hdocs & _).
    destruct (dedup_loop_origin env _ _ _ _ _ Hrun) as ((rows & Hrows & Hall) & Hres).
    destruct (Hres processed eq_refl) as (kept & -> & Hkept). simpl in *.
    destruct Hmain as (_ & Hr & Hd & _).
    exists rows. eexists. split; [by rewrite Hr|]. split; [by rewrite Hd, Hdocs|].
    intros row c Hrow Hc%stored_batches_elem Hsrc.
    apply split_documents_metadata in Hc as (p & Hp & Hm).
    rewrite Forall_forall in Hkept. apply Hkept in Hp.
    apply directory_pages_source in Hp as (f & Hf').
    rewrite Forall_forall in Hall. destruct (Hall row Hrow) as (d0 & _ & Hname).
    unfold has_source in Hsrc. rewrite Hm, Hf' in Hsrc. injection Hsrc as Hsrc.
    pose proof (basename_no_slash (metadata_get d0 "source" "unknown.pdf")) as Hns.
    fold (file_name_of d0) in Hns. rewrite <- Hname, <- Hsrc in Hns.
    by rewrite documents_path_has_slash in Hns.
  - destruct (dedup_loop_named env "" _ _ _ _ _ Hrun) as (Hdocs & _).
    destruct (dedup_loop_origin env _ _ _ _ _ Hrun) as ((rows & Hrows & _) & _).
    unfold final. rewrite Hmain. simpl in *.
    exists rows, []. rewrite app_nil_r. repeat split; try done.
    by intros row d _ ?%not_elem_of_nil.
Qed.

End ScriptLinkage.

(** ** One file of several pages in the folder *)

Section PerPage.
Context (env : Env).

Lemma file_name_of_set_source path p : file_name_of (set_source path p) = basename path.
Proof.
  unfold file_name_of, metadata_get, set_source. simpl. by rewrite lookup_insert_eq.
Qed.

Lemma metadata_get_author_set_source path p dflt :
  metadata_get (set_source path p) "author" dflt = metadata_get p "author" dflt.
Proof.
  unfold metadata_get, set_source. simpl. by rewrite lookup_insert_ne.
Qed.

Lemma directory_pages_app dir1 dir2 :
  directory_pages (dir1 ++ dir2) = directory_pages dir1 ++ directory_pages dir2.
Proof. unfold directory_pages. by rewrite fmap_app, join_app. Qed.

Lemma directory_pages_cons f dir :
  directory_pages (f :: dir) = stamp ("documents/" +:+ f.1) f.2 ++ directory_pages dir.
Proof. reflexivity. Qed.

(** The pages of the other files do not carry the name. *)
Lemma directory_pages_other_names n dir :
  Forall (fun f => basename f.1 ≠ n) dir ->
  filter (fun d => file_name_of d = n) (directory_pages dir) = [].
Proof.
  induction dir as [|f dir IH]; intros Hall; [done|].
  apply Forall_cons in Hall as [Hf Hall].
  rewrite directory_pages_cons, filter_app, IH, app_nil_r by done.
  unfold stamp. induction (f.2) as [|p ps IHp]; [done|].
  rewrite fmap_cons, filter_cons_False; [done|].
  by rewrite file_name_of_set_source, basename_documents.
Qed.

(** The pages of the file itself all carry it. *)
Lemma stamp_own_name n (pdf : Pdf) :
  has_slash n = false ->
  filter (fun d => file_name_of d = n) (stamp ("documents/" +:+ n) pdf)
  = stamp ("documents/" +:+ n) pdf.
Proof.
  intros Hn. unfold stamp. induction pdf as [|p ps IH]; [done|].
  rewrite fmap_cons, filter_cons_True, IH; [done|].
  by rewrite file_name_of_set_source, basename_documents, basename_plain.
Qed.

(** Filtering by file name commutes with chunking. *)
Lemma filter_split_documents n l :
  filter (fun c => file_name_of c = n) (split_documents env l)
  = split_documents env (filter (fun d => file_name_of d = n) l).
Proof.
  induction l as [|d l IH]; [done|].
  rewrite split_documents_cons, filter_app, IH, filter_cons.
  assert (forall cs, Forall (fun c => metadata c = metadata d) cs ->
            filter (fun c => file_name_of c = n) cs
            = if decide (file_name_of d = n) then cs else []) as Hcs.
  { induction cs as [|c cs IHc]; intros Hall.
    - by destruct (decide _).
    - apply Forall_cons in Hall as [Hc Hall]. rewrite filter_cons, (IHc Hall).
      rewrite (file_name_of_metadata c d Hc). by destruct (decide _). }
  rewrite Hcs.
  - destruct (decide _); [by rewrite split_documents_cons|done].
  - apply Forall_forall. intros c Hc. by apply split_document_metadata in Hc.
Qed.

(** The dedup loop over two stretches of pages. *)
Lemma dedup_loop_app l1 l2 : forall acc w,
  dedup_loop env (l1 ++ l2) acc w
  = match dedup_loop env l1 acc w with
    | (Ok acc', w1) => dedup_loop env l2 acc' w1
    | (Raise e, w1) => (Raise e, w1)
    end.
Proof.
  induction l1 as [|x l1 IH]; intros acc w; [done|].
  rewrite <- app_comm_cons. cbn [dedup_loop].
  rewrite !bind_unfold.
  destruct (registry_select env (file_name_of x) w) as [[response|e] w0]; [|done].
  destruct (bool_decide _).
  - rewrite !bind_unfold. destruct (emit _ w0) as [[[]|e] w1]; [|done]. apply IH.
  - rewrite !bind_unfold.
    destruct (registry_insert env _ _ w0) as [[[]|e] w1]; [|done]. apply IH.
Qed.

(** The dedup loop only appends to the trace. *)
Lemma dedup_loop_trace docs : forall acc w,
  exists evs, trace (final (dedup_loop env docs acc) w) = trace w ++ evs.
Proof.
  induction docs as [|x rest IH]; intros acc w.
  - exists []. unfold final. simpl. by rewrite app_nil_r.
  - unfold final in *. cbn [dedup_loop].
    unfold registry_select, registry_insert, external. unfold_m.
    destruct (fails env (calls w)); simpl; [by eexists|].
    destruct (bool_decide _); simpl.
    + match goal with |- context [dedup_loop env rest ?a ?w1] =>
        destruct (IH a w1) as (evs & ->) end.
      simpl. eexists. by rewrite <- !app_assoc.
    + destruct (fails env (S (calls w))); simpl; [eexists; by rewrite <- !app_assoc|].
      match goal with |- context [dedup_loop env rest ?a ?w1] =>
        destruct (IH a w1) as (evs & ->) end.
      simpl. eexists. by rewrite <- !app_assoc.
Qed.

(** With no failing call the dedup loop runs to its end. *)
Lemma dedup_loop_no_failure docs : forall acc w,
  (forall k, fails env k = false) ->
  exists res, outcome (dedup_loop env docs acc) w = Ok res.
Proof.
  induction docs as [|x rest IH]; intros acc w Hok.
  - by exists acc.
  - unfold outcome in *. cbn [dedup_loop].
    unfold registry_select, registry_insert, external. unfold_m.
    rewrite Hok. simpl. destruct (bool_decide _); simpl.
    + apply IH, Hok.
    + rewrite Hok. simpl. apply IH, Hok.
Qed.

End PerPage.

(** ** The order of the script's writes *)

Section ScriptOrder.
Context (env : Env).

Lemma dedup_loop_calls docs : forall acc w,
  exists evs, trace (final (dedup_loop env docs acc) w) = trace w ++ evs
           /\ Forall is_registry_call (ext_calls evs).
Proof.
  induction docs as [|x rest IH]; intros acc w.
  - exists []. unfold final. simpl. rewrite app_nil_r. split; [done|apply Forall_nil_2].
  - unfold final in *. cbn [dedup_loop].
    unfold registry_select, registry_insert, external. unfold_m.
    destruct (fails env (calls w)); simpl.
    { eexists. split; [done|]. simpl. by apply Forall_singleton. }
    destruct (bool_decide _); simpl.
    + match goal with |- context [dedup_loop env rest ?a ?w1] =>
        destruct (IH a w1) as (evs & -> & Hall) end.
      simpl. eexists. split; [by rewrite <- !app_assoc|].
      rewrite !ext_calls_app. simpl. by apply Forall_cons.
    + destruct (fails env (S (calls w))); simpl.
      { eexists. split; [by rewrite <- !app_assoc|]. simpl.
        by repeat (apply Forall_cons; split; [done|]). }
      match goal with |- context [dedup_loop env rest ?a ?w1] =>
        destruct (IH a w1) as (evs & -> & Hall) end.
      simpl. eexists. split; [by rewrite <- !app_assoc|].
      rewrite !ext_calls_app. simpl. by repeat (apply Forall_cons; split; [done|]).
Qed.

Lemma attempts_store_calls n bs : Forall is_store_call (attempts env n bs).
Proof.
  revert n. induction bs as [|b bs IH]; intros n; simpl; [apply Forall_nil_2|].
  apply Forall_cons. split; [done|apply IH].
Qed.

(** X21.  Whatever the folder holds and whatever fails: after loading, the
    script makes all its registry calls first and all its store calls
    afterwards. *)
Lemma script_registers_then_stores dir w :
  exists ok registry_calls store_calls,
    ext_calls (added (trace w) (trace (final (main env dir) w)))
    = (LoaderLoad "documents", ok) :: registry_calls ++ store_calls
    /\ Forall is_registry_call registry_calls
    /\ Forall is_store_call store_calls.
Proof.
  pose proof (main_cases env dir w) as Hmain. simpl in Hmain.
  destruct (fails env (calls w)) eqn:Hf.
  { exists false, [], []. split; [|split; apply Forall_nil_2].
    unfold main, PyPDFDirectoryLoader_load, external. unfold_m. rewrite Hf. simpl.
    by rewrite added_app. }
  destruct (dedup_loop_calls (directory_pages dir) [] (after_load w)) as (evs & Htr & Hall).
  unfold final in Htr.
  destruct (dedup_loop env (directory_pages dir) [] (after_load w))
    as [[processed|e] w1] eqn:Hrun; simpl in Htr.
  - destruct Hmain as (_ & _ & _ & evsb & Htrb & Hevsb).
    exists true, (ext_calls evs). eexists. split; [|split; [done|]].
    + rewrite Htrb, Htr. simpl. rewrite <- !app_assoc, added_app.
      rewrite !ext_calls_app, Hevsb. reflexivity.
    + apply attempts_store_calls.
  - unfold final. rewrite Hmain. simpl.
    exists true, (ext_calls evs), []. split; [|split; [done|apply Forall_nil_2]].
    rewrite Htr. simpl. rewrite <- !app_assoc, added_app, app_nil_r.
    by rewrite ext_calls_app.
Qed.

(** X22.  A file none of whose pages yields a chunk is registered by the
    script all the same: with no failing call, a not yet registered file
    directly in the folder ends up in the registry while the vector store
    is left as it was. *)
Lemma script_registers_without_chunks (fname : string) (p1 : Document) (ps : Pdf) w :
  (forall k, fails env k = false) ->
  has_slash fname = false ->
  ¬ registered fname w ->
  Forall (fun p => split_text env (page_content p) = []) (p1 :: ps) ->
  let w' := final (main env [(fname, p1 :: ps)]) w in
  outcome (main env [(fname, p1 :: ps)]) w = Ok tt
  /\ registered fname w'
  /\ documents w' = documents w.
Proof.
  intros Hok Hplain Hfresh Hempty.
  pose proof (main_cases env [(fname, p1 :: ps)] w) as Hmain. cbv zeta in Hmain.
  rewrite Hok in Hmain.
  destruct (dedup_loop_no_failure env (directory_pages [(fname, p1 :: ps)]) []
              (after_load w) Hok) as (res & Hres).
  unfold outcome in Hres.
  destruct (dedup_loop env (directory_pages [(fname, p1 :: ps)]) [] (after_load w))
    as [[processed|e] w1] eqn:Hrun; [|done].
  destruct (dedup_loop_named env fname _ _ _ _ _ Hrun) as (Hdocs & _ & Hno).
  assert (¬ registered fname (after_load w)) as Hfresh0 by done.
  specialize (Hno Hfresh0 processed eq_refl).
  rewrite directory_pages_cons in Hno. cbn [fst snd] in Hno.
  change (directory_pages []) with (@nil Document) in Hno. rewrite app_nil_r in Hno.
  rewrite stamp_own_name in Hno by done.
  unfold stamp in Hno. rewrite fmap_cons in Hno. destruct Hno as [_ (id & Hrows)].
  destruct (dedup_loop_origin env _ _ _ _ _ Hrun) as (_ & Horigin).
  destruct (Horigin processed eq_refl) as (kept & -> & Hkept).
  rewrite app_nil_l in *.
  destruct Hmain as (Hout & Hr & Hd & _). cbv zeta. split; [done|]. split.
  - apply registered_select. unfold rows_named in Hrows. by rewrite Hr, Hrows.
  - rewrite Hd, Hdocs. simpl.
    assert (split_documents env kept = []) as ->.
    { apply split_documents_nil. apply Forall_forall. intros d Hd'.
      rewrite Forall_forall in Hkept. apply Hkept in Hd'.
      change (directory_pages [(fname, p1 :: ps)])
        with (stamp ("documents/" +:+ fname) (p1 :: ps) ++ []) in Hd'.
      rewrite app_nil_r in Hd'. unfold stamp in Hd'.
      apply list_elem_of_fmap in Hd' as (p & -> & Hp).
      rewrite Forall_forall in Hempty. exact (Hempty p Hp). }
    by rewrite app_nil_r.
Qed.

End ScriptOrder.

(** ** The delete loop *)

Section DeleteFacts.
Context (env : Env).
Import Documents.

Lemma delete_row_run row w :
  exists evs,
    ext_calls evs
    = (if fails env (calls w) then [(ChunksDelete (row_name row), false)]
       else (ChunksDelete (row_name row), true)
            :: [(RegistryDelete (row_id row), negb (fails env (S (calls w))))])
    /\ delete_row env row w
       = if fails env (calls w) then
           (Raise (ExternalError (calls w)),
            mkWorld (uploaded_documents w) (documents w) (next_id w) (S (calls w))
                    (trace w ++ evs))
         else if fails env (S (calls w)) then
           (Raise (ExternalError (S (calls w))),
            mkWorld (uploaded_documents w)
                    (filter (fun d => ¬ has_source (row_name row) d) (documents w))
                    (next_id w) (S (S (calls w))) (trace w ++ evs))
         else
           (Ok tt,
            mkWorld (filter (fun r => row_id r ≠ row_id row) (uploaded_documents w))
                    (filter (fun d => ¬ has_source (row_name row) d) (documents w))
                    (next_id w) (S (S (calls w))) (trace w ++ evs)).
Proof.
  unfold delete_row, chunks_delete, registry_delete, external. unfold_m. simpl.
  destruct (fails env (calls w)); simpl;
    [|destruct (fails env (S (calls w))); simpl];
    eexists; (split; [|rewrite <- ?app_assoc; reflexivity]); done.
Qed.

(** The loop as a whole: which calls it makes, and that both tables can
    only lose rows. *)
Lemma delete_loop_run rows : forall w,
  let w' := final (for_each rows (delete_row env)) w in
  (exists evs, trace w' = trace w ++ evs
            /\ ext_calls evs = delete_calls env (calls w) rows)
  /\ (forall d, d ∈ documents w' -> d ∈ documents w)
  /\ (forall r, r ∈ uploaded_documents w' -> r ∈ uploaded_documents w).
Proof.
  induction rows as [|row rest IH]; intros w.
  - unfold final. simpl. split; [|done]. exists []. by rewrite app_nil_r.
  - unfold final in *. rewrite for_each_cons.
    destruct (delete_row_run row w) as (evs0 & Hevs0 & ->). simpl.
    destruct (fails env (calls w)) eqn:Hf0; simpl.
    { split; [|done]. by exists evs0. }
    destruct (fails env (S (calls w))) eqn:Hf1; simpl.
    { split; [by exists evs0|]. split; [|done].
      intros d Hd. by apply list_elem_of_filter in Hd as [_ ?]. }
    match goal with |- context [for_each rest _ ?w1] => specialize (IH w1) end.
    simpl in IH. destruct IH as ((evs & Htr & Hevs) & Hd & Hr).
    split; [|split].
    + exists (evs0 ++ evs). split; [by rewrite Htr, <- app_assoc|].
      by rewrite ext_calls_app, Hevs0, Hevs.
    + intros d Hin. apply Hd in Hin. by apply list_elem_of_filter in Hin as [_ ?].
    + intros r Hin. apply Hr in Hin. by apply list_elem_of_filter in Hin as [_ ?].
Qed.

(** When the loop ends normally, every selected row is gone, chunks first. *)
Lemma delete_loop_done rows : forall w w',
  for_each rows (delete_row env) w = (Ok tt, w') ->
  forall row, row ∈ rows ->
    chunks_of (row_name row) w' = []
    /\ (forall r, r ∈ uploaded_documents w' -> row_id r ≠ row_id row).
Proof.
  induction rows as [|x rest IH]; intros w w' Hrun row Hrow.
  - by apply not_elem_of_nil in Hrow.
  - rewrite for_each_cons in Hrun.
    destruct (delete_row_run x w) as (evs0 & _ & Hbody). rewrite Hbody in Hrun.
    destruct (fails env (calls w)); [done|].
    destruct (fails env (S (calls w))); [done|].
    apply elem_of_cons in Hrow as [->|Hrow]; [|by eapply IH].
    match type of Hrun with for_each _ _ ?w1 = _ =>
      destruct (delete_loop_run rest w1) as (_ & Hd & Hr) end.
    unfold final in *. rewrite Hrun in *. simpl in *. split.
    + unfold chunks_of.
      destruct (filter (has_source (row_name x)) (documents w')) as [|d l] eqn:E; [done|].
      assert (d ∈ filter (has_source (row_name x)) (documents w')) as Hin
        by (rewrite E; left).
      apply list_elem_of_filter in Hin as [Hsrc Hin].
      apply Hd, list_elem_of_filter in Hin as [Hno _]. done.
    + intros r Hin. by apply Hr, list_elem_of_filter in Hin as [? _].
Qed.

(** In the calls of the delete loop, a registry delete comes directly
    after the chunk delete of the same selected row, and that one returned. *)
Lemma delete_calls_order env' rows : forall n pre id ok post,
  delete_calls env' n rows = pre ++ (RegistryDelete id, ok) :: post ->
  exists row pre', row ∈ rows /\ row_id row = id
    /\ pre = pre' ++ [(ChunksDelete (row_name row), true)].
Proof.
  induction rows as [|x rest IH]; intros n pre id ok post Heq; simpl in Heq.
  - by destruct pre.
  - destruct (fails env' n).
    { destruct pre as [|? [|? ?]]; simpl in *; simplify_eq. }
    destruct pre as [|c0 pre]; simpl in *; [simplify_eq|]. injection Heq as <- Heq.
    destruct (fails env' (S n)).
    { destruct pre as [|? [|? ?]]; simpl in *; simplify_eq.
      exists x, []. split; [by left|done]. }
    destruct pre as [|c1 pre]; simpl in Heq.
    + injection Heq as <- <- _. exists x, []. split; [by left|done].
    + injection Heq as <- Heq.
      apply IH in Heq as (row & pre' & Hrow & Hid & Hpre).
      exists row. eexists (_ :: _ :: pre'). split; [by right|]. split; [done|].
      rewrite Hpre. reflexivity.
Qed.

End DeleteFacts.

(** ** The upload loop *)

Section UploadLoop.
Context (env : Env).

Lemma for_each_emit {A} (g : A -> Event) (l : list A) : forall w,
  outcome (for_each l (fun x => emit (g x))) w = Ok tt.
Proof.
  induction l as [|x l IH]; intros w; [done|].
  unfold outcome in *. rewrite for_each_cons. simpl. apply IH.
Qed.

(** A loop ends where its body first raises. *)
Lemma for_each_raise {A} (body : A -> M unit) pre x post : forall w e w1 w2,
  for_each pre body w = (Ok tt, w1) ->
  body x w1 = (Raise e, w2) ->
  for_each (pre ++ x :: post) body w = (Raise e, w2).
Proof.
  induction pre as [|y pre IH]; intros w e w1 w2 Hpre Hx.
  - injection Hpre as <-. rewrite app_nil_l, for_each_cons. by rewrite Hx.
  - rewrite <- app_comm_cons. rewrite for_each_cons in *.
    destruct (body y w) as [[[]|e0] w0]; [|done]. by eapply IH.
Qed.

(** The upload page when the processing of file [f] raises: the handler of
    the page reports the error, and the files after [f] are not looked at. *)
Lemma upload_page_aborts pre f post w e w1 w2 :
  for_each pre (Uploader.process_and_ingest_pdf env) (listed (pre ++ f :: post) w)
  = (Ok tt, w1) ->
  Uploader.process_and_ingest_pdf env f w1 = (Raise e, w2) ->
  Uploader.upload_page env (pre ++ f :: post) true w
  = (Ok tt, with_events w2 [StError "An error occurred during the setup."; StException e]).
Proof.
  intros Hpre Hf.
  pose proof (for_each_raise _ pre f post _ _ _ _ Hpre Hf) as Hloop.
  unfold Uploader.upload_page, try_except.
  rewrite bool_decide_true by (by destruct pre).
  unfold listed, final in Hloop.
  pose proof (for_each_emit (fun file => StOther ("- `" +:+ Uploader.name file +:+ "`"))
                (pre ++ f :: post)) as Hlist.
  unfold outcome in Hlist.
  rewrite bind_unfold. rewrite bind_unfold in Hloop.
  destruct (emit (StOther "Files to be uploaded:") w) as [[[]|e0] w0] eqn:E0; [|done].
  rewrite bind_unfold. specialize (Hlist w0).
  destruct (for_each (pre ++ f :: post) _ w0) as [[[]|e1] w3]; [|done].
  simpl in Hloop. rewrite bind_unfold, Hloop.
  unfold with_events. unfold_m. simpl. by rewrite <- app_assoc.
Qed.

End UploadLoop.

(** * The properties of the specification *)

(** C1 (idempotent ingestion).  When the name [n] is already in the
    registry, a further ingestion of a file of that name changes neither
    table.  The uploader makes one registry lookup and nothing else; when
    the lookup returns it ends normally after the warning "Skipping
    duplicate file".  When the registry entry is the one a first upload of
    the file made from a state without it, the registry holds exactly one
    row of that name after the second upload.  The directory script keeps
    the rows of [n], stores no chunk of a page of [n], and logs "Skipping
    duplicate" for it. *)
Theorem idempotent_ingestion (env : Env) (n : string) (w : World) :
  registered n w ->
  (forall f : Uploader.UploadedFile, Uploader.name f = n ->
     let w' := final (Uploader.process_and_ingest_pdf env f) w in
     uploaded_documents w' = uploaded_documents w
     /\ documents w' = documents w
     /\ ext_calls (added (trace w) (trace w'))
        = [(RegistrySelect n, negb (fails env (calls w)))]
     /\ (fails env (calls w) = false ->
         outcome (Uploader.process_and_ingest_pdf env f) w = Ok tt
         /\ added (trace w) (trace w')
            = [Call (RegistrySelect n) true;
               StWarning ("Skipping duplicate file: `" +:+ n +:+ "`")])
     /\ (forall w0, ¬ registered n w0 ->
         w = final (Uploader.process_and_ingest_pdf env f) w0 ->
         length (rows_named n w') = 1))
  /\ (forall dir : Directory,
     let w' := final (main env dir) w in
     rows_named n w' = rows_named n w
     /\ (exists new, documents w' = documents w ++ new
                   /\ Forall (fun d => file_name_of d ≠ n) new)
     /\ (outcome (main env dir) w = Ok tt ->
         (exists d, d ∈ directory_pages dir /\ file_name_of d = n) ->
         LoggerInfo ("Skipping duplicate: " +:+ n) ∈ added (trace w) (trace w'))).
Proof.
  intros Hreg. split.
  - intros f <-.
    destruct (uploader_skip env f w Hreg) as (Hr & Hd & Hc & Hok). simpl.
    repeat split; try done; try (by apply Hok).
    intros w0 Hfresh ->. unfold rows_named at 1. rewrite Hr.
    destruct (uploader_store_before_register env f w0) as (_ & _ & _ & Hrows & _).
    { intros E. apply Hfresh. unfold registered in *. by rewrite <- E. }
    fold (rows_named (Uploader.name f) (final (Uploader.process_and_ingest_pdf env f) w0)).
    unfold rows_named. rewrite Hrows, filter_app.
    fold (rows_named (Uploader.name f) w0). rewrite rows_named_nil by done.
    rewrite filter_cons_True by done. done.
  - intros dir. by apply script_skip.
Qed.

(** A registry that holds "guide.pdf" after a first upload: the second
    upload leaves one row and the one chunk. *)
Lemma idempotent_ingestion_witness :
  let w1 := final (Uploader.process_and_ingest_pdf demo_env guide) empty_world in
  let w2 := final (Uploader.process_and_ingest_pdf demo_env guide) w1 in
  registered "guide.pdf" w1
  /\ uploaded_documents w2 = uploaded_documents w1
  /\ documents w2 = documents w1
  /\ length (rows_named "guide.pdf" w2) = 1.
Proof.
  intros w1 w2.
  assert (registered "guide.pdf" w1) as Hreg
    by (apply (bool_decide_unpack _); vm_compute; exact I).
  split; [exact Hreg|].
  destruct (idempotent_ingestion demo_env "guide.pdf" w1 Hreg) as [Hup _].
  destruct (Hup guide eq_refl) as (Hr & Hd & _ & _ & Hone).
  split; [exact Hr|]. split; [exact Hd|].
  apply (Hone empty_world); [|reflexivity].
  apply (bool_decide_unpack _). vm_compute. exact I.
Defined.

(** C2 (chunk linkage), at the input where the script breaks it: the
    folder holds the one-page file "guide.pdf" and nothing is registered.
    The script registers "guide.pdf" and stores the chunk with [source]
    "documents/guide.pdf", so that the registry name finds no chunk. *)
Theorem script_breaks_chunk_linkage :
  let w' := final (main demo_env [("guide.pdf", [page_of "Two hundred words." "Ray"])])
                  empty_world in
  outcome (main demo_env [("guide.pdf", [page_of "Two hundred words." "Ray"])])
          empty_world = Ok tt
  /\ row_name <$> uploaded_documents w' = ["guide.pdf"]
  /\ (fun d => metadata d !! "source") <$> documents w' = [Some "documents/guide.pdf"]
  /\ chunks_of "guide.pdf" w' = [].
Proof. vm_compute. repeat split. Qed.

(** C5 (cascading delete).  Pressing the delete button for the selected
    [rows] makes exactly the calls [delete_calls]: whatever fails, a
    registry delete is issued only directly after the chunk delete (by
    [metadata->>source] = the row's name) of the same row has returned.
    When the action ends normally, no chunk with a selected row's name as
    [source] is left, the row's id is gone from the registry, and the chunk
    count query of the management page answers 0 for that name. *)
Theorem cascading_delete (env : Env) (rows : list RegRow) (w : World) :
  let m := Documents.delete_selected env rows true in
  let w' := final m w in
  ext_calls (added (trace w) (trace w')) = delete_calls env (calls w) rows
  /\ (forall pre id ok post,
        ext_calls (added (trace w) (trace w')) = pre ++ (RegistryDelete id, ok) :: post ->
        exists row pre', row ∈ rows /\ row_id row = id
          /\ pre = pre' ++ [(ChunksDelete (row_name row), true)])
  /\ (outcome m w = Ok tt ->
      forall row, row ∈ rows ->
        chunks_of (row_name row) w' = []
        /\ (forall r, r ∈ uploaded_documents w' -> row_id r ≠ row_id row)
        /\ (fails env (calls w') = false ->
            outcome (Documents.chunk_count env (row_name row)) w' = Ok 0%Z)).
Proof.
  intros m w'.
  assert (ext_calls (added (trace w) (trace w')) = delete_calls env (calls w) rows) as Hcalls.
  { subst m w'. unfold Documents.delete_selected.
    destruct (bool_decide_reflect (rows ≠ [])) as [Hne|He].
    - pose proof (delete_loop_run env rows w) as ((evs & Htr & Hevs) & _).
      unfold_m. simpl in *.
      destruct (for_each rows (Documents.delete_row env) w) as [[[]|e] w1]; simpl in *;
        rewrite Htr, <- ?app_assoc, added_app, ?ext_calls_app, Hevs; simpl;
        by rewrite ?app_nil_r.
    - destruct rows; [|by destruct He]. unfold_m. simpl.
      by rewrite added_same. }
  split; [exact Hcalls|]. split.
  - intros pre id ok post Heq. rewrite Hcalls in Heq.
    by apply delete_calls_order in Heq.
  - intros Hok row Hrow. subst m w'. unfold Documents.delete_selected in *.
    rewrite bool_decide_true in * by (intros ->; by apply not_elem_of_nil in Hrow).
    unfold_m.
    destruct (for_each rows (Documents.delete_row env) w) as [[[]|e] w1] eqn:Hrun;
      [|done].
    destruct (delete_loop_done env rows w w1 Hrun row Hrow) as (Hchunks & Hids).
    simpl. split; [done|]. split; [done|].
    intros Hf. unfold Documents.chunk_count, chunks_count, external. unfold_m. simpl.
    rewrite Hf. simpl. unfold chunks_of in Hchunks. by rewrite Hchunks.
Qed.

(** ** The router *)

Lemma all_db_keys_missing (secrets : gmap string string) k :
  k ∈ Raymondo.DB_KEYS -> secrets !! k = None -> Raymondo.all_db_keys secrets = false.
Proof.
  intros Hk Hnone. unfold Raymondo.all_db_keys.
  apply not_true_is_false. intros Hall.
  rewrite forallb_forall in Hall. apply list_elem_of_In in Hk.
  specialize (Hall k Hk). apply bool_decide_eq_true in Hall.
  rewrite Hnone in Hall. by destruct Hall.
Qed.

Ltac no_sql_calls :=
  repeat (apply Forall_cons; split; [simpl; tauto|]); apply Forall_nil_2.

Ltac extends_trace :=
  eexists; split;
  [rewrite <- ?app_assoc; first [reflexivity | symmetry; apply app_nil_r]
  |no_sql_calls].

(** Without an SQL executor the chat never reaches the structured store,
    whichever data source is asked for. *)
Lemma chat_without_sql_executor env doc_executor data_source user_input messages w :
  exists evs,
    trace (final (Raymondo.chat env doc_executor None data_source user_input messages) w)
    = trace w ++ evs
    /\ Forall (fun ev => ¬ Raymondo.is_sql_call ev) evs.
Proof.
  unfold Raymondo.chat, external. unfold_m.
  destruct user_input as [user_input|]; simpl; [|extends_trace].
  destruct (bool_decide (user_input = "")); simpl; [extends_trace|].
  destruct (bool_decide (data_source = Raymondo.DOCS_OPTION)); simpl.
  - destruct doc_executor; simpl.
    + destruct (fails env (calls w)); simpl; [extends_trace|].
      destruct (bool_decide _); simpl; extends_trace.
    + extends_trace.
  - destruct (bool_decide (data_source = Raymondo.CASE_OPTION)); simpl; extends_trace.
Qed.

(** C6 (router gating).  When one of the four database secrets is missing,
    [initialize_system] makes no call to the structured store and returns
    no SQL executor; the page then offers the single option "Internal
    Documents (PDFs)", and no run of the page, whatever is picked and
    asked, makes a call to the structured store. *)
Theorem router_gating (env : Env) (secrets : gmap string string) (k : string) (w : World) :
  k ∈ Raymondo.DB_KEYS -> secrets !! k = None ->
  let init := Raymondo.initialize_system env secrets in
  (forall doc_executor sql_executor,
     outcome init w = Ok (doc_executor, sql_executor) -> sql_executor = None)
  /\ Forall (fun ev => ¬ Raymondo.is_sql_call ev) (added (trace w) (trace (final init w)))
  /\ forall choice user_input messages,
       let run := Raymondo.page env secrets choice user_input messages in
       Forall (fun ev => ¬ Raymondo.is_sql_call ev) (added (trace w) (trace (final run w)))
       /\ forall options messages',
            outcome run w = Ok (options, messages') ->
            options = [Raymondo.DOCS_OPTION]
            /\ Raymondo.CASE_OPTION ∉ options.
Proof.
  intros Hk Hnone init.
  pose proof (all_db_keys_missing secrets k Hk Hnone) as Hkeys.
  assert (forall w0, init w0 =
            match secrets !! "SUPABASE_URL", secrets !! "SUPABASE_SERVICE_KEY" with
            | Some _, Some _ =>
                (Ok (Some (Raymondo.mkDocExecutor "internal_document_search" "documents"
                             "match_documents"), None), w0)
            | Some _, None => (Raise (KeyError "SUPABASE_SERVICE_KEY"), w0)
            | None, _ => (Raise (KeyError "SUPABASE_URL"), w0)
            end) as Hinit.
  { intros w0. subst init. unfold Raymondo.initialize_system, Raymondo.secret. unfold_m.
    rewrite Hkeys.
    destruct (secrets !! "SUPABASE_URL"); [|done].
    destruct (secrets !! "SUPABASE_SERVICE_KEY"); done. }
  split; [|split].
  - intros d s. unfold outcome. rewrite Hinit.
    destruct (secrets !! "SUPABASE_URL"); [|done].
    destruct (secrets !! "SUPABASE_SERVICE_KEY"); [|done]. by intros [= _ <-].
  - unfold final. rewrite Hinit.
    destruct (secrets !! "SUPABASE_URL"); [|simpl; rewrite added_same; apply Forall_nil_2].
    destruct (secrets !! "SUPABASE_SERVICE_KEY"); simpl; rewrite added_same;
      apply Forall_nil_2.
  - intros choice user_input messages run. subst run.
    unfold Raymondo.page. fold init. unfold final, outcome.
    rewrite (bind_unfold _ init w), Hinit.
    destruct (secrets !! "SUPABASE_URL");
      [|simpl; rewrite added_same; split; [apply Forall_nil_2|done]].
    destruct (secrets !! "SUPABASE_SERVICE_KEY");
      [|simpl; rewrite added_same; split; [apply Forall_nil_2|done]].
    rewrite bind_unfold. simpl. rewrite bind_unfold.
    match goal with |- context [Raymondo.chat env ?d None ?ds ?ui ?ms ?w1] =>
      destruct (chat_without_sql_executor env d ds ui ms w1) as (evs & Htr & Hno);
      unfold final in Htr;
      destruct (Raymondo.chat env d None ds ui ms w1) as [[msgs|e] w2] eqn:Hrun
    end; simpl in *; rewrite Htr, <- app_assoc, added_app.
    + split; [apply Forall_cons; split; [simpl; tauto|done]|].
      intros options messages' [= <- _]. split; [done|].
      unfold Raymondo.radio_options, Raymondo.DOCS_OPTION, Raymondo.CASE_OPTION. simpl.
      by intros [=]%list_elem_of_singleton.
    + split; [apply Forall_cons; split; [simpl; tauto|done]|done].
Qed.

(** Secrets without the database host. *)
Lemma router_gating_witness :
  let secrets : gmap string string :=
    {["SUPABASE_URL" := "u"; "SUPABASE_SERVICE_KEY" := "k"; "DB_USER" := "x"]} in
  let run := Raymondo.page demo_env secrets 1 (Some "How many cases?") [] in
  "DB_HOST" ∈ Raymondo.DB_KEYS
  /\ secrets !! "DB_HOST" = None
  /\ Forall (fun ev => ¬ Raymondo.is_sql_call ev)
       (added (trace empty_world) (trace (final run empty_world)))
  /\ forall options messages',
       outcome run empty_world = Ok (options, messages') ->
       options = [Raymondo.DOCS_OPTION] /\ Raymondo.CASE_OPTION ∉ options.
Proof.
  intros secrets run.
  assert ("DB_HOST" ∈ Raymondo.DB_KEYS) as Hk
    by (apply (bool_decide_unpack _); vm_compute; exact I).
  assert (secrets !! "DB_HOST" = None) as Hnone by (vm_compute; reflexivity).
  split; [exact Hk|]. split; [exact Hnone|].
  destruct (router_gating demo_env secrets "DB_HOST" empty_world Hk Hnone)
    as (_ & _ & Hpage).
  exact (Hpage 1 (Some "How many cases?") []).
Defined.

(** C7 (failure containment), as far as the code goes.  In the directory
    script the batch loop never raises: a batch whose [add_documents] call
    fails is logged with a warning, every batch is attempted, and the
    chunks of the batches that went through are in the store.  There is no
    such containment per file: when processing a file raises in the upload
    loop, the loop ends there, the one handler of the page reports the
    error, and the files after it are not processed. *)
Theorem failure_containment (env : Env) :
  (forall docs w,
     let w' := final (batch_loop env docs) w in
     outcome (batch_loop env docs) w = Ok tt
     /\ uploaded_documents w' = uploaded_documents w
     /\ documents w' = documents w ++ stored env (calls w) (batches docs)
     /\ ext_calls (added (trace w) (trace w')) = attempts env (calls w) (batches docs)
     /\ forall k i, range_step (length docs) BATCH_SIZE !! k = Some i ->
          fails env (calls w + k) = true ->
          LoggerWarning ("Failed to insert batch " +:+ pretty (i / BATCH_SIZE + 1)
                         +:+ ": " +:+ str (ExternalError (calls w + k)))
          ∈ added (trace w) (trace w'))
  /\ (forall pre f post w e w1 w2,
        for_each pre (Uploader.process_and_ingest_pdf env) (listed (pre ++ f :: post) w)
        = (Ok tt, w1) ->
        Uploader.process_and_ingest_pdf env f w1 = (Raise e, w2) ->
        Uploader.upload_page env (pre ++ f :: post) true w
        = (Ok tt, with_events w2 [StError "An error occurred during the setup.";
                                  StException e])).
Proof.
  split.
  - intros docs w.
    destruct (batch_loop_run env docs w) as (Hout & Hreg & Hdocs & _ & evs & Htr & Hevs & Hwarn).
    simpl. rewrite Htr, added_app. repeat split; done.
  - intros pre f post w e w1 w2. apply upload_page_aborts.
Qed.

(** Two uploads, the loader failing on the first: the second is never
    looked at.  Two hundred and fifty chunks, the second batch failing: the
    third batch is stored all the same. *)
Lemma failure_containment_witness :
  let env := faulty_env [1] in
  let w' := final (Uploader.upload_page env [guide; other] true) empty_world in
  ext_calls (trace w')
  = [(RegistrySelect "guide.pdf", true); (LoaderLoad "/tmp/tmpab12cd.pdf", false)]
  /\ outcome (batch_loop env (replicate 250 (page_of "chunk" "Ray"))) empty_world = Ok tt
  /\ length (documents (final (batch_loop env (replicate 250 (page_of "chunk" "Ray")))
                         empty_world)) = 150.
Proof.
  intros env w'. destruct (failure_containment env) as [Hbatch Hupload].
  split.
  - assert (Uploader.upload_page env [guide; other] true empty_world
            = (Ok tt, with_events
                        (final (Uploader.process_and_ingest_pdf env guide)
                               (listed [guide; other] empty_world))
                        [StError "An error occurred during the setup.";
                         StException (ExternalError 1)])) as Hrun.
    { apply (Hupload [] guide [other] empty_world (ExternalError 1)
               (listed [guide; other] empty_world)); [reflexivity|].
      vm_compute. reflexivity. }
    subst w'. unfold final at 1. rewrite Hrun. vm_compute. reflexivity.
  - destruct (Hbatch (replicate 250 (page_of "chunk" "Ray")) empty_world)
      as (Hout & _ & Hdocs & _).
    split; [exact Hout|]. rewrite Hdocs. vm_compute. reflexivity.
Defined.

(** C7 as stated fails on the upload loop and on the script's dedup loop.
    With two files to upload and the PDF loader failing on the first one,
    the page ends without a single call for the second file, which alone
    would have been ingested.  With two files in the folder and the first
    registry lookup failing, the script ends with the exception and
    nothing is stored. *)
Lemma per_file_failure_ends_the_run :
  let w' := final (Uploader.upload_page (faulty_env [1]) [guide; other] true) empty_world in
  ext_calls (trace w')
  = [(RegistrySelect "guide.pdf", true); (LoaderLoad "/tmp/tmpab12cd.pdf", false)]
  /\ uploaded_documents w' = [] /\ documents w' = []
  /\ row_name <$> uploaded_documents
                    (final (Uploader.upload_page demo_env [other] true) empty_world)
     = ["other.pdf"]
  /\ (let dir := [("guide.pdf", [page_of "Two hundred words." "Ray"]);
                  ("other.pdf", [page_of "Other text." "Ann"])] in
      outcome (main (faulty_env [1]) dir) empty_world = Raise (ExternalError 1)
      /\ ext_calls (trace (final (main (faulty_env [1]) dir) empty_world))
         = [(LoaderLoad "documents", true); (RegistrySelect "guide.pdf", false)]
      /\ documents (final (main (faulty_env [1]) dir) empty_world) = []).
Proof. vm_compute. repeat split. Qed.

(** C10 (the dedup check runs per page).  Let the folder hold a file
    [fname] of at least two pages [p1 :: p2 :: ps] and no other file of
    that base name.  Whatever fails and whatever the registry holds, every
    chunk of that name the script stores is a chunk of the first page.
    When the name is not registered yet and no call fails, the script
    registers the name once, at the first page and with its author, the
    chunks it stores under that name are exactly the chunks of the first
    page, and "Skipping duplicate" is logged for the name: the later pages
    are dropped as duplicates of the first. *)
Theorem only_first_page_is_stored (env : Env) (pre post : Directory) (fname : string)
    (p1 p2 : Document) (ps : Pdf) (w : World) :
  has_slash fname = false ->
  Forall (fun f => basename f.1 ≠ fname) (pre ++ post) ->
  let dir := pre ++ (fname, p1 :: p2 :: ps) :: post in
  let first := set_source ("documents/" +:+ fname) p1 in
  let w' := final (main env dir) w in
  (forall c, c ∈ added (documents w) (documents w') ->
             file_name_of c = fname -> c ∈ split_document env first)
  /\ (¬ registered fname w ->
      (forall k, fails env k = false) ->
      outcome (main env dir) w = Ok tt
      /\ (exists id, rows_named fname w'
                     = [mkRegRow id fname (metadata_get p1 "author" "Unknown")])
      /\ filter (fun c => file_name_of c = fname) (added (documents w) (documents w'))
         = split_document env first
      /\ LoggerInfo ("Skipping duplicate: " +:+ fname) ∈ added (trace w) (trace w')).
Proof.
  intros Hplain Hothers dir first w'.
  destruct (decide (registered fname w)) as [Hreg|Hfresh].
  { split; [|done]. intros c Hc Hname.
    destruct (script_skip env fname dir w Hreg) as (_ & (new & Hnew & Hall) & _).
    subst w'. rewrite Hnew, added_app in Hc.
    rewrite Forall_forall in Hall. by destruct (Hall c Hc). }
  apply Forall_app in Hothers as [Hpre Hpost].
  set (path := "documents/" +:+ fname) in *.
  set (l1 := directory_pages pre ++ [first]).
  set (l2 := stamp path (p2 :: ps) ++ directory_pages post).
  assert (directory_pages dir = l1 ++ l2) as Hpages.
  { subst dir l1 l2. rewrite directory_pages_app, directory_pages_cons.
    cbn [fst snd]. unfold stamp. rewrite fmap_cons. by rewrite <- app_assoc. }
  assert (filter (fun d => file_name_of d = fname) l1 = [first]) as Hl1.
  { subst l1. rewrite filter_app, directory_pages_other_names by done.
    rewrite filter_cons_True; [done|].
    subst first path. by rewrite file_name_of_set_source, basename_documents, basename_plain. }
  assert (filter (fun d => file_name_of d = fname) (l1 ++ l2)
          = first :: stamp path (p2 :: ps)) as Hnamed.
  { rewrite filter_app, Hl1. subst l2.
    rewrite filter_app, stamp_own_name, directory_pages_other_names by done.
    by rewrite app_nil_r. }
  assert (¬ registered fname (after_load w)) as Hfresh0 by done.
  pose proof (main_cases env dir w) as Hmain. simpl in Hmain. fold w' in Hmain.
  destruct (fails env (calls w)) eqn:Hf.
  { destruct Hmain as (_ & _ & Hd). rewrite Hd, added_same. split.
    - by intros c ?%not_elem_of_nil.
    - intros _ Hok. by rewrite Hok in Hf. }
  rewrite Hpages in Hmain.
  destruct (dedup_loop env (l1 ++ l2) [] (after_load w)) as [[processed|e] w1] eqn:Hrun.
  - destruct (dedup_loop_named env fname _ _ _ _ _ Hrun) as (Hdocs & _ & Hno).
    specialize (Hno Hfresh0 processed eq_refl). rewrite Hnamed in Hno.
    destruct Hno as [Hkept (id & Hrows)]. rewrite filter_nil, app_nil_l in Hkept.
    destruct Hmain as (Hout & Hr & Hd & evsb & Htr & _).
    assert (filter (fun c => file_name_of c = fname) (split_documents env processed)
            = split_document env first) as Hchunks.
    { rewrite filter_split_documents, Hkept, split_documents_cons. apply app_nil_r. }
    rewrite Hd, Hdocs. simpl. rewrite added_app. split.
    + intros c Hc%stored_batches_elem Hname. rewrite <- Hchunks.
      by apply list_elem_of_filter.
    + intros _ Hok. split; [done|]. split; [|split].
      * exists id. unfold rows_named in *. rewrite Hr, Hrows.
        subst first. by rewrite metadata_get_author_set_source.
      * by rewrite stored_no_failure, join_batches.
      * rewrite dedup_loop_app in Hrun.
        destruct (dedup_loop env l1 [] (after_load w)) as [[acc1|e1] wm] eqn:Hrun1; [|done].
        destruct (dedup_loop_named env fname _ _ _ _ _ Hrun1) as (_ & _ & Hno1).
        specialize (Hno1 Hfresh0 acc1 eq_refl). rewrite Hl1 in Hno1.
        destruct Hno1 as [_ (id1 & Hrows1)].
        assert (registered fname wm) as Hregm.
        { apply registered_select. unfold rows_named in Hrows1. by rewrite Hrows1. }
        destruct (dedup_loop_skip_logged env fname _ _ _ _ _ Hregm Hrun)
          as (evs2 & Htr2 & Hlog).
        destruct (dedup_loop_trace env l1 [] (after_load w)) as (evs1 & Htr1).
        unfold final in Htr1. rewrite Hrun1 in Htr1. simpl in Htr1.
        rewrite Htr, Htr2, Htr1, <- !app_assoc, added_app.
        do 2 (apply elem_of_app; right). apply elem_of_app; left.
        apply Hlog. exists (set_source path p2). split.
        -- subst l2. apply elem_of_app; left. unfold stamp. rewrite fmap_cons. by left.
        -- subst path. by rewrite file_name_of_set_source, basename_documents, basename_plain.
  - destruct (dedup_loop_named env fname _ _ _ _ _ Hrun) as (Hdocs & _).
    subst w'. unfold final, outcome. rewrite Hmain. simpl.
    rewrite Hdocs. simpl. rewrite added_same. split.
    + by intros c ?%not_elem_of_nil.
    + intros _ Hok.
      destruct (dedup_loop_no_failure env (l1 ++ l2) [] (after_load w) Hok) as (res & Hres).
      unfold outcome in Hres. by rewrite Hrun in Hres.
Qed.

(** A file of three pages in an empty folder: one row, one chunk, the
    first page's. *)
Lemma only_first_page_is_stored_witness :
  let pdf := [page_of "page one" "Ray"; page_of "page two" "Ray"; page_of "page three" "Ray"] in
  let w' := final (main demo_env [("guide.pdf", pdf)]) empty_world in
  has_slash "guide.pdf" = false
  /\ ¬ registered "guide.pdf" empty_world
  /\ page_content <$> filter (fun c => file_name_of c = "guide.pdf")
                        (added (documents empty_world) (documents w'))
     = ["page one"]
  /\ length (rows_named "guide.pdf" w') = 1.
Proof.
  intros pdf w'.
  assert (¬ registered "guide.pdf" empty_world) as Hfresh
    by (apply (bool_decide_unpack _); vm_compute; exact I).
  split; [reflexivity|]. split; [exact Hfresh|].
  destruct (only_first_page_is_stored demo_env [] [] "guide.pdf"
              (page_of "page one" "Ray") (page_of "page two" "Ray")
              [page_of "page three" "Ray"] empty_world eq_refl
              (Forall_nil_2 _)) as [_ Hok].
  destruct (Hok Hfresh (fun _ => eq_refl)) as (_ & (id & Hrows) & Hchunks & _).
  split.
  - etrans; [exact (f_equal (fmap page_content) Hchunks)|]. vm_compute. reflexivity.
  - exact (f_equal length Hrows).
Defined.

(** C3 (chunks before the registry entry), at the input where the script
    breaks it: the folder holds the one-page file "guide.pdf", nothing is
    registered.  The script inserts the registry row before it stores the
    chunk; when the one store call then fails, the row is there without a
    single chunk, and a later run skips the file as a duplicate. *)
Theorem script_registers_before_storing :
  let dir := [("guide.pdf", [page_of "Two hundred words." "Ray"])] in
  let chunk := set_source "documents/guide.pdf" (page_of "Two hundred words." "Ray") in
  ext_calls (trace (final (main demo_env dir) empty_world))
  = [(LoaderLoad "documents", true); (RegistrySelect "guide.pdf", true);
     (RegistryInsert "guide.pdf" "Ray", true); (AddDocuments [chunk], true)]
  /\ (let w' := final (main (faulty_env [3]) dir) empty_world in
      outcome (main (faulty_env [3]) dir) empty_world = Ok tt
      /\ ext_calls (trace w')
         = [(LoaderLoad "documents", true); (RegistrySelect "guide.pdf", true);
            (RegistryInsert "guide.pdf" "Ray", true); (AddDocuments [chunk], false)]
      /\ uploaded_documents w' = [mkRegRow 1 "guide.pdf" "Ray"]
      /\ documents w' = []
      /\ documents (final (main demo_env dir) w') = []).
Proof. vm_compute. repeat split. Qed.

(** C4 (no chunks, no registry row), at the input where the script breaks
    it: the folder holds "scan.pdf", whose one page has no text.  Chunking
    yields nothing, yet the script has registered the file, and a later run
    skips it as a duplicate instead of trying again. *)
Theorem script_registers_file_without_text :
  let dir := [("scan.pdf", [page_of "" "Ray"])] in
  let w' := final (main demo_env dir) empty_world in
  split_documents demo_env (directory_pages dir) = []
  /\ outcome (main demo_env dir) empty_world = Ok tt
  /\ uploaded_documents w' = [mkRegRow 1 "scan.pdf" "Ray"]
  /\ documents w' = []
  /\ added (trace w') (trace (final (main demo_env dir) w'))
     = [Call (LoaderLoad "documents") true; Call (RegistrySelect "scan.pdf") true;
        LoggerInfo "Skipping duplicate: scan.pdf";
        Stdout "Loaded 0 chunks from 0 unique PDFs."]
  /\ documents (final (main demo_env dir) w') = [].
Proof. vm_compute. repeat split. Qed.

(** ** What the source fixes about the structured query tool *)

(** Every SQL executor [initialize_system] returns was built with the
    allow-list [completions]. *)
Lemma sql_executor_allow_list (env : Env) (secrets : gmap string string) (w : World)
    doc_executor sql_executor :
  outcome (Raymondo.initialize_system env secrets) w = Ok (doc_executor, Some sql_executor) ->
  Raymondo.include_tables sql_executor = ["completions"].
Proof.
  unfold outcome, Raymondo.initialize_system, Raymondo.secret, external. unfold_m.
  destruct (secrets !! "SUPABASE_URL"); [|done].
  destruct (secrets !! "SUPABASE_SERVICE_KEY"); [|done].
  destruct (Raymondo.all_db_keys secrets); [|by intros [=]].
  destruct (secrets !! "DB_USER"); [|by intros [=]].
  destruct (secrets !! "DB_PASSWORD"); [|by intros [=]].
  destruct (secrets !! "DB_HOST"); [|by intros [=]].
  destruct (secrets !! "DB_NAME"); [|by intros [=]].
  destruct (fails env (calls w)); simpl; [by intros [=]|].
  by intros [= _ <-].
Qed.

(** X24.  Every question handed to the SQL agent names the table: the
    input of each call of the SQL agent a chat turn makes is the fixed
    instruction about the 'completions' table followed by a question. *)
Lemma sql_prompt_names_table (env : Env) doc_executor sql_executor data_source
    user_input messages (w : World) input ok :
  (SqlInvoke input, ok)
  ∈ ext_calls (added (trace w)
       (trace (final (Raymondo.chat env doc_executor sql_executor data_source
                        user_input messages) w))) ->
  exists question,
    input = "Based on the 'completions' table, answer the user's question: " +:+ question.
Proof.
  unfold Raymondo.chat, external. unfold_m.
  destruct user_input as [user_input|]; simpl;
    [|rewrite added_same; by intros ?%not_elem_of_nil].
  destruct (bool_decide (user_input = "")); simpl;
    [rewrite added_same; by intros ?%not_elem_of_nil|].
  destruct (bool_decide (data_source = Raymondo.DOCS_OPTION)); simpl;
    [destruct doc_executor; simpl
    |destruct (bool_decide (data_source = Raymondo.CASE_OPTION)); simpl;
       [destruct sql_executor; simpl|]];
    try (destruct (fails env (calls w)); simpl; [|destruct (bool_decide _); simpl]);
    rewrite <- ?app_assoc, ?added_app, ?added_same; simpl;
    intros Hin; repeat (apply elem_of_cons in Hin as [Hin|Hin]);
    try (by apply not_elem_of_nil in Hin); try done;
    injection Hin as -> _; by eexists.
Qed.

(** * Further properties of the code *)

(** ** The uploader *)

Section UploaderMore.
Context (env : Env).

(** What one call of [process_and_ingest_pdf] does to the tables: nothing,
    or the chunks alone (the registry insert failed), or the chunks and
    then the registry row. *)
Lemma process_tables (f : Uploader.UploadedFile) (w : World) :
  let m := Uploader.process_and_ingest_pdf env f in
  let w' := final m w in
  let pages := set_source (Uploader.name f) <$> Uploader.getbuffer f in
  let docs := split_documents env pages in
  (uploaded_documents w' = uploaded_documents w /\ documents w' = documents w
   /\ next_id w' = next_id w)
  \/ (docs ≠ [] /\ ¬ registered (Uploader.name f) w
      /\ outcome m w = Raise (ExternalError (S (S (S (calls w)))))
      /\ uploaded_documents w' = uploaded_documents w
      /\ documents w' = documents w ++ docs /\ next_id w' = next_id w)
  \/ (docs ≠ [] /\ ¬ registered (Uploader.name f) w
      /\ outcome m w = Ok tt
      /\ uploaded_documents w'
         = uploaded_documents w
           ++ [mkRegRow (next_id w) (Uploader.name f) (Uploader.first_author pages)]
      /\ documents w' = documents w ++ docs /\ next_id w' = S (next_id w)).
Proof.
  unfold Uploader.process_and_ingest_pdf, registry_select, registry_insert, add_documents,
         PyPDFLoader_load, Uploader.named_temporary_file, external; unfold_m; simpl.
  destruct (fails env (calls w)) eqn:H0; simpl; [by left|].
  destruct (bool_decide_reflect
    (filter (fun r => row_name r = Uploader.name f) (uploaded_documents w) ≠ []))
    as [Hreg|Hnew]; simpl; [by left|].
  assert (¬ registered (Uploader.name f) w) as Hfresh.
  { intros Hr%registered_select. apply Hnew. done. }
  destruct (fails env (S (calls w))) eqn:H1; simpl; [by left|].
  rewrite set_source_stamp.
  destruct (bool_decide_reflect
    (split_documents env (set_source (Uploader.name f) <$> Uploader.getbuffer f) = []))
    as [Hnil|Hdocs]; simpl; [by left|].
  destruct (fails env (S (S (calls w)))) eqn:H2; simpl; [by left|].
  destruct (fails env (S (S (S (calls w))))) eqn:H3; simpl.
  - right; left. done.
  - right; right. done.
Qed.

End UploaderMore.

(** ** Keeping a property through a computation *)

Lemma final_bind {A B} (m : M A) (k : A -> M B) w :
  final (m ≫= k) w
  = match m w with
    | (Ok a, w1) => final (k a) w1
    | (Raise e, w1) => w1
    end.
Proof. unfold final. rewrite bind_unfold. by destruct (m w) as [[a|e] w1]. Qed.

Lemma preserves_bind {A B} P (m : M A) (k : A -> M B) :
  preserves P m -> (forall a, preserves P (k a)) -> preserves P (m ≫= k).
Proof.
  intros Hm Hk w Hw. rewrite final_bind. specialize (Hm w Hw). unfold final in Hm.
  destruct (m w) as [[a|e] w1]; simpl in Hm; [by apply Hk|done].
Qed.

Lemma preserves_ret {A} P (a : A) : preserves P (mret a).
Proof. by intros w Hw. Qed.

Lemma preserves_emit P ev : table_property P -> preserves P (emit ev).
Proof. intros HP w Hw. by apply (HP w). Qed.

Lemma preserves_try_except {A} P (m : M A) h :
  preserves P m -> (forall e, preserves P (h e)) -> preserves P (try_except m h).
Proof.
  intros Hm Hh w Hw. specialize (Hm w Hw). unfold final, try_except in *.
  destruct (m w) as [[a|e] w1]; simpl in *; [done|by apply Hh].
Qed.

Lemma preserves_for_each {A} P (l : list A) body :
  (forall x, preserves P (body x)) -> preserves P (for_each l body).
Proof.
  intros Hb. induction l as [|x l IH]; [apply preserves_ret|].
  apply (preserves_bind P (body x)); [apply Hb|by intros _].
Qed.

Lemma preserves_upload_page env P files button :
  table_property P ->
  (forall f, preserves P (Uploader.process_and_ingest_pdf env f)) ->
  preserves P (Uploader.upload_page env files button).
Proof.
  intros HP Hf. unfold Uploader.upload_page.
  apply preserves_try_except.
  - destruct (bool_decide _); [|apply preserves_ret].
    apply preserves_bind; [by apply preserves_emit|intros _].
    apply preserves_bind;
      [apply preserves_for_each; intros x; by apply preserves_emit|intros _].
    destruct button; [|apply preserves_ret].
    apply preserves_bind; [by apply preserves_for_each|intros _].
    repeat (apply preserves_bind; [by apply preserves_emit|intros _]).
    by apply preserves_emit.
  - intros e. apply preserves_bind; [by apply preserves_emit|intros _].
    by apply preserves_emit.
Qed.

Lemma linked_table_property : table_property linked.
Proof.
  intros w w' [= Hr Hd Hn] Hl r Hin. unfold chunks_of. rewrite <- Hd.
  apply Hl. by rewrite Hr.
Qed.

Lemma unique_names_table_property : table_property unique_names.
Proof. intros w w' [= Hr Hd Hn]. unfold unique_names. by rewrite Hr. Qed.

Lemma serial_ids_table_property : table_property serial_ids.
Proof. intros w w' [= Hr Hd Hn]. unfold serial_ids. by rewrite Hr, Hn. Qed.

Lemma chunks_of_nonempty n w :
  chunks_of n w ≠ [] <-> exists d, d ∈ documents w /\ has_source n d.
Proof.
  unfold chunks_of. split.
  - intros Hne. destruct (filter _ _) as [|d l] eqn:E; [done|].
    assert (d ∈ filter (has_source n) (documents w)) as Hd by (rewrite E; left).
    apply list_elem_of_filter in Hd as [? ?]. eauto.
  - intros (d & Hd & Hs) Hnil.
    assert (d ∈ filter (has_source n) (documents w)) as Hin
      by (by apply list_elem_of_filter).
    rewrite Hnil in Hin. by apply not_elem_of_nil in Hin.
Qed.

Section UploaderInvariants.
Context (env : Env).

Lemma process_keeps_linked f : preserves linked (Uploader.process_and_ingest_pdf env f).
Proof.
  intros w Hl.
  destruct (process_tables env f w)
    as [(Hr & Hd & Hn)|[(Hne & _ & _ & Hr & Hd & _)|(Hne & _ & _ & Hr & Hd & _)]].
  - apply (linked_table_property w); [unfold tables; by rewrite Hr, Hd, Hn|done].
  - intros r Hin. rewrite Hr in Hin. apply chunks_of_nonempty.
    apply Hl, chunks_of_nonempty in Hin as (d & Hdin & Hs).
    exists d. split; [rewrite Hd; apply elem_of_app; by left|done].
  - intros r Hin. rewrite Hr in Hin. apply chunks_of_nonempty.
    apply elem_of_app in Hin as [Hin|Hin].
    + apply Hl, chunks_of_nonempty in Hin as (d & Hdin & Hs).
      exists d. split; [rewrite Hd; apply elem_of_app; by left|done].
    + apply list_elem_of_singleton in Hin as ->. simpl.
      destruct (split_documents env (set_source (Uploader.name f) <$> Uploader.getbuffer f))
        as [|d l] eqn:E; [done|].
      exists d. split; [rewrite Hd; apply elem_of_app; right; left|].
      pose proof (split_documents_has_source env (Uploader.name f) (Uploader.getbuffer f))
        as Hall.
      rewrite E in Hall. by apply Forall_cons in Hall as [? _].
Qed.

Lemma process_keeps_unique_names f :
  preserves unique_names (Uploader.process_and_ingest_pdf env f).
Proof.
  intros w Hu. unfold unique_names in *.
  destruct (process_tables env f w)
    as [(Hr & _)|[(_ & _ & _ & Hr & _)|(_ & Hfresh & _ & Hr & _)]];
    rewrite Hr; [done|done|].
  rewrite fmap_app. apply NoDup_app. split; [done|]. split.
  - intros n Hn Hin. apply list_elem_of_singleton in Hin as ->. by apply Hfresh.
  - apply NoDup_singleton.
Qed.

Lemma process_keeps_serial_ids f :
  preserves serial_ids (Uploader.process_and_ingest_pdf env f).
Proof.
  intros w [Hnd Hlt]. unfold serial_ids in *.
  destruct (process_tables env f w)
    as [(Hr & _ & Hn)|[(_ & _ & _ & Hr & _ & Hn)|(_ & _ & _ & Hr & _ & Hn)]];
    rewrite Hr, Hn; [done|done|].
  split.
  - rewrite fmap_app. apply NoDup_app. split; [done|]. split; [|apply NoDup_singleton].
    intros i Hi Hin. apply list_elem_of_singleton in Hin as ->.
    apply list_elem_of_fmap in Hi as (r & E & Hr'). apply Hlt in Hr'. simpl in E. lia.
  - intros r [Hin|Hin]%elem_of_app.
    + apply Hlt in Hin. lia.
    + apply list_elem_of_singleton in Hin as ->. simpl. lia.
Qed.

End UploaderInvariants.

(** X1.  An upload never leaves a registry row without chunks: when every
    registry row has at least one chunk whose [source] is the row's name,
    this still holds after the upload page has run, whatever files were
    given and whichever calls failed. *)
Theorem upload_keeps_rows_linked (env : Env) (files : list Uploader.UploadedFile)
    (button : bool) (w : World) :
  linked w -> linked (final (Uploader.upload_page env files button) w).
Proof.
  apply preserves_upload_page; [apply linked_table_property|].
  apply process_keeps_linked.
Qed.

Lemma upload_keeps_rows_linked_witness :
  linked empty_world
  /\ linked (final (Uploader.upload_page (faulty_env [6]) [guide; other] true) empty_world).
Proof.
  assert (linked empty_world) as H0 by (intros r Hr; by apply not_elem_of_nil in Hr).
  split; [exact H0|].
  exact (upload_keeps_rows_linked (faulty_env [6]) [guide; other] true empty_world H0).
Defined.

(** X2.  The upload page keeps the names of the registry distinct and its
    ids serial: when no two rows share a name, the ids are distinct and
    below the next id, the same holds after the page has run. *)
Theorem upload_keeps_registry_keys (env : Env) (files : list Uploader.UploadedFile)
    (button : bool) (w : World) :
  unique_names w -> serial_ids w ->
  let w' := final (Uploader.upload_page env files button) w in
  unique_names w' /\ serial_ids w'.
Proof.
  intros Hu Hs. split.
  - revert Hu. apply preserves_upload_page; [apply unique_names_table_property|].
    apply process_keeps_unique_names.
  - revert Hs. apply preserves_upload_page; [apply serial_ids_table_property|].
    apply process_keeps_serial_ids.
Qed.

Lemma upload_keeps_registry_keys_witness :
  let w' := final (Uploader.upload_page demo_env [guide; other; guide] true) empty_world in
  unique_names empty_world /\ serial_ids empty_world
  /\ unique_names w' /\ serial_ids w'.
Proof.
  assert (unique_names empty_world) as Hu by apply NoDup_nil_2.
  assert (serial_ids empty_world) as Hs.
  { split; [apply NoDup_nil_2|]. intros r Hr. by apply not_elem_of_nil in Hr. }
  split; [exact Hu|]. split; [exact Hs|].
  exact (upload_keeps_registry_keys demo_env [guide; other; guide] true empty_world Hu Hs).
Defined.

(** X3.  [process_and_ingest_pdf] cleans up after itself: whichever call
    fails, when it has written a temporary file, the last thing it does is
    to remove that file, and it removes no other. *)
Theorem temporary_file_is_removed (env : Env) (f : Uploader.UploadedFile) (w : World) :
  let evs := added (trace w) (trace (final (Uploader.process_and_ingest_pdf env f) w)) in
  forall path,
    (TmpWrite path ∈ evs -> last evs = Some (OsRemove path))
    /\ (OsRemove path ∈ evs -> TmpWrite path ∈ evs).
Proof.
  unfold Uploader.process_and_ingest_pdf, registry_select, registry_insert, add_documents,
         PyPDFLoader_load, Uploader.named_temporary_file, external; unfold_m; simpl.
  intros path.
  repeat (match goal with
          | |- context [fails env ?n] => destruct (fails env n) eqn:?; simpl
          | |- context [bool_decide ?P] => destruct (bool_decide_reflect P); simpl
          end);
    rewrite <- ?app_assoc, ?added_app; simpl;
    (split; intros Hin;
     repeat (apply elem_of_cons in Hin as [Hin|Hin]);
     try (by apply not_elem_of_nil in Hin); try done);
    try (injection Hin as ->; try done; set_solver).
Qed.

Lemma preserves_for_each_in {A} P (l : list A) body :
  (forall x, x ∈ l -> preserves P (body x)) -> preserves P (for_each l body).
Proof.
  induction l as [|x l IH]; intros Hb; [apply preserves_ret|].
  apply (preserves_bind P (body x)); [apply Hb; by left|intros _].
  apply IH. intros y Hy. apply Hb. by right.
Qed.

Lemma preserves_upload_page_in env P files button :
  table_property P ->
  (forall f, f ∈ files -> preserves P (Uploader.process_and_ingest_pdf env f)) ->
  preserves P (Uploader.upload_page env files button).
Proof.
  intros HP Hf. unfold Uploader.upload_page.
  apply preserves_try_except.
  - destruct (bool_decide _); [|apply preserves_ret].
    apply preserves_bind; [by apply preserves_emit|intros _].
    apply preserves_bind;
      [apply preserves_for_each; intros x; by apply preserves_emit|intros _].
    destruct button; [|apply preserves_ret].
    apply preserves_bind; [by apply preserves_for_each_in|intros _].
    repeat (apply preserves_bind; [by apply preserves_emit|intros _]).
    by apply preserves_emit.
  - intros e. apply preserves_bind; [by apply preserves_emit|intros _].
    by apply preserves_emit.
Qed.

(** X4.  The upload page never raises and only ever appends: whatever
    fails, it ends normally, every registry row and every chunk that was
    there is still there, each new row carries the name of one of the
    uploaded files, and each new chunk names one of them as its [source]. *)
Theorem upload_page_only_appends (env : Env) (files : list Uploader.UploadedFile)
    (button : bool) (w : World) :
  let w' := final (Uploader.upload_page env files button) w in
  outcome (Uploader.upload_page env files button) w = Ok tt
  /\ exists rows new,
       uploaded_documents w' = uploaded_documents w ++ rows
       /\ documents w' = documents w ++ new
       /\ Forall (fun r => exists f, f ∈ files /\ row_name r = Uploader.name f) rows
       /\ Forall (fun d => exists f, f ∈ files /\ has_source (Uploader.name f) d) new.
Proof.
  split.
  - unfold outcome, Uploader.upload_page, try_except.
    match goal with |- context [let (_, _) := ?m w in _] => destruct (m w) as [[[]|e] w1] end;
      done.
  - set (P := fun w' : World =>
        exists rows new,
          uploaded_documents w' = uploaded_documents w ++ rows
          /\ documents w' = documents w ++ new
          /\ Forall (fun r => exists f, f ∈ files /\ row_name r = Uploader.name f) rows
          /\ Forall (fun d => exists f, f ∈ files /\ has_source (Uploader.name f) d) new).
    assert (table_property P) as HP.
    { intros w1 w2 [= Hr Hd Hn] (rows & new & ? & ? & ? & ?).
      exists rows, new. by rewrite <- Hr, <- Hd. }
    apply (preserves_upload_page_in env P files button HP).
    + intros f Hf w1 (rows & new & Hr1 & Hd1 & Hrows & Hnew).
      pose proof (split_documents_has_source env (Uploader.name f) (Uploader.getbuffer f))
        as Hsrc.
      assert (Forall (fun d => exists f0, f0 ∈ files /\ has_source (Uploader.name f0) d)
                (split_documents env (set_source (Uploader.name f) <$> Uploader.getbuffer f)))
        as Hdocs by (eapply Forall_impl; [exact Hsrc|]; intros d ?; by exists f).
      destruct (process_tables env f w1)
        as [(Hr & Hd & _)|[(_ & _ & _ & Hr & Hd & _)|(_ & _ & _ & Hr & Hd & _)]].
      * exists rows, new. by rewrite Hr, Hd.
      * eexists rows, (new ++ _). rewrite Hr, Hd, Hr1, Hd1, <- app_assoc.
        repeat split; try done. by apply Forall_app.
      * eexists (rows ++ _), (new ++ _). rewrite Hr, Hd, Hr1, Hd1, <- !app_assoc.
        repeat split; try done; [|by apply Forall_app].
        apply Forall_app. split; [done|]. apply Forall_singleton. by exists f.
    + exists [], []. rewrite !app_nil_r. repeat split; apply Forall_nil_2.
Qed.

Section UploadAll.
Context (env : Env).

Lemma registered_table_property n : table_property (registered n).
Proof. intros w w' [= Hr _ _]. unfold registered. by rewrite Hr. Qed.

Lemma process_keeps_registered n f :
  preserves (registered n) (Uploader.process_and_ingest_pdf env f).
Proof.
  intros w Hreg. unfold registered in *.
  destruct (process_tables env f w)
    as [(Hr & _)|[(_ & _ & _ & Hr & _)|(_ & _ & _ & Hr & _)]]; rewrite Hr; [done|done|].
  rewrite fmap_app. apply elem_of_app. by left.
Qed.

(** With no failing call a file is processed to the end, and is registered
    afterwards when it has any text. *)
Lemma process_without_failure f w :
  (forall k, fails env k = false) ->
  outcome (Uploader.process_and_ingest_pdf env f) w = Ok tt
  /\ (split_documents env (Uploader.getbuffer f) ≠ [] ->
      registered (Uploader.name f) (final (Uploader.process_and_ingest_pdf env f) w)).
Proof.
  intros Hok.
  unfold Uploader.process_and_ingest_pdf, registry_select, registry_insert, add_documents,
         PyPDFLoader_load, Uploader.named_temporary_file, external; unfold_m; simpl.
  rewrite !Hok. simpl.
  destruct (bool_decide_reflect
    (filter (fun r => row_name r = Uploader.name f) (uploaded_documents w) ≠ []))
    as [Hreg|Hnew]; simpl.
  { split; [done|]. intros _. by apply registered_select. }
  rewrite !Hok. simpl. rewrite set_source_stamp.
  destruct (bool_decide_reflect
    (split_documents env (set_source (Uploader.name f) <$> Uploader.getbuffer f) = []))
    as [Hnil|Hdocs]; simpl.
  { split; [done|]. intros Hne. by apply split_documents_set_source_nil in Hnil. }
  rewrite !Hok. simpl. split; [done|]. intros _.
  unfold registered. simpl. rewrite fmap_app. apply elem_of_app. right. by left.
Qed.

Lemma for_each_registers files : forall w,
  (forall k, fails env k = false) ->
  outcome (for_each files (Uploader.process_and_ingest_pdf env)) w = Ok tt
  /\ forall f, f ∈ files -> split_documents env (Uploader.getbuffer f) ≠ [] ->
       registered (Uploader.name f)
         (final (for_each files (Uploader.process_and_ingest_pdf env)) w).
Proof.
  induction files as [|x rest IH]; intros w Hok.
  - split; [done|]. by intros f ?%not_elem_of_nil.
  - destruct (process_without_failure x w Hok) as [Hout Hreg].
    unfold final, outcome in *. rewrite for_each_cons.
    destruct (Uploader.process_and_ingest_pdf env x w) as [[[]|e] w1] eqn:Hx; [|done].
    destruct (IH w1 Hok) as [Hout' Hall]. split; [done|].
    intros f [->|Hf]%elem_of_cons Hne; [|by apply Hall].
    apply (preserves_for_each (registered (Uploader.name x)));
      [intros y; apply process_keeps_registered|by apply Hreg].
Qed.

(** The tables after the page are the tables after its loop over the files. *)
Lemma upload_page_tables files w :
  files ≠ [] ->
  tables (final (Uploader.upload_page env files true) w)
  = tables (final (for_each files (Uploader.process_and_ingest_pdf env)) (listed files w)).
Proof.
  intros Hne. unfold Uploader.upload_page, try_except, listed, final.
  rewrite bool_decide_true by done.
  pose proof (for_each_emit (fun file => StOther ("- `" +:+ Uploader.name file +:+ "`"))
                files) as Hlist.
  unfold outcome in Hlist. rewrite !bind_unfold.
  destruct (emit (StOther "Files to be uploaded:") w) as [[[]|e0] w0] eqn:E0; [|done].
  rewrite bind_unfold. specialize (Hlist w0).
  destruct (for_each files _ w0) as [[[]|e1] w3]; [|done]. simpl.
  rewrite bind_unfold.
  destruct (for_each files (Uploader.process_and_ingest_pdf env) w3) as [[[]|e] w4]; done.
Qed.

End UploadAll.

(** X5.  When no call fails, the upload page gets through all its files:
    every uploaded file whose text yields a chunk is in the registry
    afterwards. *)
Theorem upload_registers_every_file (env : Env) (files : list Uploader.UploadedFile)
    (w : World) (f : Uploader.UploadedFile) :
  (forall k, fails env k = false) ->
  f ∈ files ->
  split_documents env (Uploader.getbuffer f) ≠ [] ->
  registered (Uploader.name f) (final (Uploader.upload_page env files true) w).
Proof.
  intros Hok Hf Hne.
  assert (files ≠ []) as Hfiles by (intros ->; by apply not_elem_of_nil in Hf).
  apply (registered_table_property (Uploader.name f)
           (final (for_each files (Uploader.process_and_ingest_pdf env)) (listed files w)));
    [symmetry; by apply upload_page_tables|].
  by apply for_each_registers.
Qed.

Lemma upload_registers_every_file_witness :
  registered "other.pdf" (final (Uploader.upload_page demo_env [guide; other] true) empty_world).
Proof.
  apply (upload_registers_every_file demo_env [guide; other] empty_world other).
  - intros k. reflexivity.
  - right. left.
  - vm_compute. discriminate.
Defined.

Lemma filter_all {A} (P : A -> Prop) `{!forall x, Decision (P x)} (l : list A) :
  Forall P l -> filter P l = l.
Proof.
  induction l as [|x l IH]; intros Hall; [done|].
  apply Forall_cons in Hall as [Hx Hall]. by rewrite filter_cons_True, IH.
Qed.

Lemma filter_none {A} (P : A -> Prop) `{!forall x, Decision (P x)} (l : list A) :
  Forall (fun x => ¬ P x) l -> filter P l = [].
Proof.
  induction l as [|x l IH]; intros Hall; [done|].
  apply Forall_cons in Hall as [Hx Hall]. by rewrite filter_cons_False, IH.
Qed.

(** X6.  Uploading a file and then deleting its registry row on the
    management page gives back the tables as they were, when no call fails,
    the file has text, its name was neither registered nor the [source] of
    a chunk, and the registry ids are serial. *)
Theorem upload_then_delete_restores (env : Env) (f : Uploader.UploadedFile) (w : World) :
  (forall k, fails env k = false) ->
  serial_ids w ->
  ¬ registered (Uploader.name f) w ->
  chunks_of (Uploader.name f) w = [] ->
  split_documents env (Uploader.getbuffer f) ≠ [] ->
  let w1 := final (Uploader.process_and_ingest_pdf env f) w in
  let w2 := final (Documents.delete_selected env (rows_named (Uploader.name f) w1) true) w1 in
  uploaded_documents w2 = uploaded_documents w /\ documents w2 = documents w.
Proof.
  intros Hok [_ Hlt] Hfresh Hnone Hne w1.
  destruct (process_without_failure env f w Hok) as [Hout Hreg]. specialize (Hreg Hne).
  destruct (process_tables env f w)
    as [(Hr & _)|[(_ & _ & Hraise & _)|(_ & _ & _ & Hr & Hd & _)]].
  { exfalso. apply Hfresh. unfold registered in *. fold w1 in Hr. by rewrite <- Hr. }
  { by rewrite Hout in Hraise. }
  fold w1 in Hr, Hd.
  set (row := mkRegRow (next_id w) (Uploader.name f)
                (Uploader.first_author (set_source (Uploader.name f) <$> Uploader.getbuffer f)))
    in *.
  assert (rows_named (Uploader.name f) w1 = [row]) as ->.
  { unfold rows_named. rewrite Hr, filter_app.
    fold (rows_named (Uploader.name f) w). rewrite rows_named_nil by done.
    by rewrite filter_cons_True. }
  intros w2. subst w2.
  unfold Documents.delete_selected, final. rewrite bool_decide_true by done.
  rewrite bind_unfold, for_each_cons.
  destruct (delete_row_run env row w1) as (evs & _ & ->). rewrite !Hok.
  unfold_m. simpl. rewrite Hr, Hd. split.
  - rewrite filter_app, filter_all, filter_cons_False, filter_nil, app_nil_r; [done| |].
    + simpl. intros Hn. by apply Hn.
    + apply Forall_forall. intros r Hin. apply Hlt in Hin. lia.
  - rewrite filter_app, filter_all, filter_none, app_nil_r; [done| |].
    + eapply Forall_impl; [apply (split_documents_has_source env)|].
      intros d Hs Hn. by apply Hn.
    + apply filter_nil_Forall in Hnone. done.
Qed.

Lemma upload_then_delete_restores_witness :
  let w1 := final (Uploader.process_and_ingest_pdf demo_env guide) empty_world in
  let w2 := final (Documents.delete_selected demo_env (rows_named "guide.pdf" w1) true) w1 in
  uploaded_documents w2 = [] /\ documents w2 = [].
Proof.
  apply (upload_then_delete_restores demo_env guide empty_world).
  - intros k. reflexivity.
  - split; [apply NoDup_nil_2|]. intros r Hr. by apply not_elem_of_nil in Hr.
  - apply (bool_decide_unpack _). vm_compute. exact I.
  - reflexivity.
  - vm_compute. discriminate.
Defined.



(** ** The directory script *)

Section ScriptMore.
Context (env : Env).

Lemma registry_keys_insert w w' n a :
  registry_keys w -> ¬ registered n w ->
  uploaded_documents w' = uploaded_documents w ++ [mkRegRow (next_id w) n a] ->
  next_id w' = S (next_id w) ->
  registry_keys w'.
Proof.
  intros [Hu [Hnd Hlt]] Hfresh Hr Hn. unfold registry_keys, unique_names, serial_ids.
  rewrite Hr, Hn, !fmap_app. repeat split.
  - apply NoDup_app. split; [done|]. split; [|apply NoDup_singleton].
    intros m Hm Hin. apply list_elem_of_singleton in Hin as ->. by apply Hfresh.
  - apply NoDup_app. split; [done|]. split; [|apply NoDup_singleton].
    intros i Hi Hin. apply list_elem_of_singleton in Hin as ->.
    apply list_elem_of_fmap in Hi as (r & E & Hr'). apply Hlt in Hr'. simpl in E. lia.
  - intros r [Hin|Hin]%elem_of_app.
    + apply Hlt in Hin. lia.
    + apply list_elem_of_singleton in Hin as ->. simpl. lia.
Qed.

Lemma dedup_loop_keeps_keys docs : forall acc,
  preserves registry_keys (dedup_loop env docs acc).
Proof.
  induction docs as [|x rest IH]; intros acc w Hk; [done|].
  unfold final in *. cbn [dedup_loop].
  unfold registry_select, registry_insert, external. unfold_m.
  destruct (fails env (calls w)) eqn:Hf0; simpl; [done|].
  destruct (bool_decide_reflect
    (filter (fun r => row_name r = file_name_of x) (uploaded_documents w) ≠ []
     ∧ 0 < length (filter (fun r => row_name r = file_name_of x) (uploaded_documents w))))
    as [_|Hnew]; simpl.
  - by apply IH.
  - destruct (fails env (S (calls w))) eqn:Hf1; simpl; [done|].
    apply IH. eapply (registry_keys_insert w); [done| |done|done].
    intros Hreg%registered_select. apply Hnew. split; [done|by apply nonempty_length].
Qed.

Lemma batch_body_keeps_registry docs i w :
  uploaded_documents (final (batch_body env docs i) w) = uploaded_documents w
  /\ next_id (final (batch_body env docs i) w) = next_id w.
Proof. unfold final. by rewrite batch_body_run. Qed.

Lemma registry_keys_same w w' :
  uploaded_documents w' = uploaded_documents w -> next_id w' = next_id w ->
  registry_keys w -> registry_keys w'.
Proof.
  intros Hr Hn. unfold registry_keys, unique_names, serial_ids. by rewrite Hr, Hn.
Qed.

End ScriptMore.

(** X8.  The directory script keeps the names of the registry distinct and
    its ids serial, whatever the folder holds and whichever calls fail. *)
Theorem script_keeps_registry_keys (env : Env) (dir : Directory) (w : World) :
  unique_names w -> serial_ids w ->
  let w' := final (main env dir) w in
  unique_names w' /\ serial_ids w'.
Proof.
  intros Hu Hs. change (registry_keys (final (main env dir) w)).
  assert (registry_keys w) as Hk by done. revert Hk. generalize w. clear.
  change (preserves registry_keys (main env dir)).
  unfold main. apply preserves_bind.
  { intros w Hk. unfold final, PyPDFDirectoryLoader_load, external.
    destruct (fails env (calls w)); simpl; by apply (registry_keys_same w). }
  intros documents. apply preserves_bind; [apply dedup_loop_keeps_keys|].
  intros processed. apply preserves_bind.
  - apply preserves_for_each. intros i w Hk.
    destruct (batch_body_keeps_registry env (split_documents env processed) i w).
    by apply (registry_keys_same w).
  - intros _ w Hk. by apply (registry_keys_same w).
Qed.

Lemma script_keeps_registry_keys_witness :
  let dir := [("guide.pdf", [page_of "one" "Ray"; page_of "two" "Ray"]);
              ("other.pdf", [page_of "Other text." "Ann"])] in
  let w' := final (main demo_env dir) empty_world in
  unique_names w' /\ serial_ids w'.
Proof.
  apply script_keeps_registry_keys.
  - apply NoDup_nil_2.
  - split; [apply NoDup_nil_2|]. intros r Hr. by apply not_elem_of_nil in Hr.
Defined.

Section ScriptRerun.
Context (env : Env).

(** A dedup loop that ran to its end has registered the name of every page. *)
Lemma dedup_loop_registers_all docs : forall acc w res w',
  dedup_loop env docs acc w = (Ok res, w') ->
  forall d, d ∈ docs -> registered (file_name_of d) w'.
Proof.
  induction docs as [|x rest IH]; intros acc w res w' Hrun d Hd.
  - by apply not_elem_of_nil in Hd.
  - pose proof Hrun as Hrun0. cbn [dedup_loop] in Hrun.
    unfold registry_select, registry_insert, external in Hrun. unfold_m.
    destruct (fails env (calls w)) eqn:Hf0; [done|]. simpl in Hrun.
    destruct (bool_decide_reflect
      (filter (fun r => row_name r = file_name_of x) (uploaded_documents w) ≠ []
       ∧ 0 < length (filter (fun r => row_name r = file_name_of x) (uploaded_documents w))))
      as [[Hdup _]|Hnew].
    + apply elem_of_cons in Hd as [->|Hd]; [|by eapply IH].
      apply registered_select in Hdup.
      destruct (dedup_loop_named env (file_name_of x) _ _ _ _ _ Hrun0) as (_ & Hyes & _).
      by destruct (Hyes Hdup).
    + simpl in Hrun. destruct (fails env (S (calls w))) eqn:Hf1; [done|]. simpl in Hrun.
      apply elem_of_cons in Hd as [->|Hd]; [|by eapply IH].
      destruct (dedup_loop_named env (file_name_of x) _ _ _ _ _ Hrun) as (_ & Hyes & _).
      apply Hyes. unfold registered. simpl. rewrite fmap_app. apply elem_of_app.
      right. by left.
Qed.

(** Over pages whose names are all registered the loop keeps nothing and
    writes nothing. *)
Lemma dedup_loop_all_registered docs : forall acc w,
  (forall d, d ∈ docs -> registered (file_name_of d) w) ->
  uploaded_documents (final (dedup_loop env docs acc) w) = uploaded_documents w
  /\ documents (final (dedup_loop env docs acc) w) = documents w
  /\ forall res, outcome (dedup_loop env docs acc) w = Ok res -> res = acc.
Proof.
  induction docs as [|x rest IH]; intros acc w Hall.
  - repeat split. by intros res [= <-].
  - unfold final, outcome in *. cbn [dedup_loop].
    unfold registry_select, registry_insert, external. unfold_m.
    destruct (fails env (calls w)) eqn:Hf0; simpl; [done|].
    rewrite bool_decide_true.
    + simpl.
      match goal with |- context [dedup_loop env rest ?a ?w1] =>
        destruct (IH a w1) as (? & ? & ?); [|done] end.
      intros d Hd. unfold registered. simpl. apply Hall. by right.
    + assert (registered (file_name_of x) w) as Hreg by (apply Hall; by left).
      apply registered_select in Hreg. split; [done|by apply nonempty_length].
Qed.

End ScriptRerun.

(** X9.  Once the directory script has run to its end over a folder, a
    further run over the same folder changes neither table, whichever calls
    fail this time: pages that were skipped and batches that failed in the
    first run are not tried again. *)
Theorem script_rerun_changes_nothing (env env' : Env) (dir : Directory) (w : World) :
  outcome (main env dir) w = Ok tt ->
  let w1 := final (main env dir) w in
  let w2 := final (main env' dir) w1 in
  uploaded_documents w2 = uploaded_documents w1 /\ documents w2 = documents w1.
Proof.
  intros Hout w1.
  assert (forall d, d ∈ directory_pages dir -> registered (file_name_of d) w1) as Hall.
  { pose proof (main_cases env dir w) as Hmain. cbv zeta in Hmain. fold w1 in Hmain.
    destruct (fails env (calls w)); [destruct Hmain as [Hr _]; by rewrite Hout in Hr|].
    destruct (dedup_loop env (directory_pages dir) [] (after_load w))
      as [[processed|e] wd] eqn:Hrun.
    - destruct Hmain as (_ & Hr & _). intros d Hd.
      unfold registered. rewrite Hr.
      by apply (dedup_loop_registers_all env _ _ _ _ _ Hrun).
    - unfold outcome in Hout. by rewrite Hmain in Hout. }
  intros w2. subst w2.
  pose proof (main_cases env' dir w1) as Hmain. cbv zeta in Hmain.
  destruct (fails env' (calls w1)); [by destruct Hmain as (_ & ? & ?)|].
  destruct (dedup_loop_all_registered env' (directory_pages dir) [] (after_load w1) Hall)
    as (Hr & Hd & Hres).
  unfold final, outcome in Hr, Hd, Hres.
  destruct (dedup_loop env' (directory_pages dir) [] (after_load w1))
    as [[processed|e] wd] eqn:Hrun; simpl in *.
  - rewrite (Hres processed eq_refl) in Hmain.
    destruct Hmain as (_ & Hr' & Hd' & _). rewrite Hr', Hd', Hr, Hd.
    split; [done|]. apply app_nil_r.
  - unfold final. rewrite Hmain. by simpl.
Qed.

Lemma script_rerun_changes_nothing_witness :
  let dir := [("guide.pdf", [page_of "one" "Ray"; page_of "two" "Ray"])] in
  let w1 := final (main (faulty_env [4]) dir) empty_world in
  let w2 := final (main demo_env dir) w1 in
  documents w1 = [] /\ uploaded_documents w2 = uploaded_documents w1 /\ documents w2 = [].
Proof.
  intros dir w1 w2.
  assert (documents w1 = []) as Hd1 by (vm_compute; reflexivity).
  split; [exact Hd1|].
  destruct (script_rerun_changes_nothing (faulty_env [4]) demo_env dir empty_world)
    as [Hr Hd]; [vm_compute; reflexivity|].
  split; [exact Hr|]. fold w1 w2 in Hd. by rewrite Hd.
Defined.

Lemma range_step_bound stop i :
  i ∈ range_step stop BATCH_SIZE -> i < stop.
Proof.
  unfold range_step, BATCH_SIZE. rewrite list_elem_of_fmap.
  intros (k & -> & Hk). apply elem_of_seq in Hk.
  pose proof (Nat.Div0.mul_div_le (stop + 100 - 1) 100). lia.
Qed.

(** X10.  The batches of the script are a partition of the chunks: put
    end to end they are the chunks in their order, none is empty and none
    holds more than a hundred. *)
Theorem batches_partition (docs : list Document) :
  mjoin (batches docs) = docs
  /\ Forall (fun b => b ≠ [] /\ length b <= BATCH_SIZE) (batches docs).
Proof.
  split; [apply join_batches|].
  unfold batches. apply Forall_fmap, Forall_forall. intros i Hi. simpl.
  apply range_step_bound in Hi. split.
  - assert (0 < length (take BATCH_SIZE (drop i docs))) as Hlen
      by (rewrite length_take, length_drop; unfold BATCH_SIZE; lia).
    intros Hnil. rewrite Hnil in Hlen. simpl in Hlen. lia.
  - rewrite length_take. lia.
Qed.

Lemma basename_from_joined d f : forall cur,
  basename_from cur (d +:+ String "/" f) = basename_from "" f.
Proof.
  induction d as [|c d IH]; intros cur.
  - reflexivity.
  - change (String c d +:+ String "/" f) with (String c (d +:+ String "/" f)).
    cbn [basename_from]. destruct (Ascii.eqb c "/"); apply IH.
Qed.

(** X11.  [basename] undoes the joining of a folder and a file name: for a
    name without a slash, the basename of [folder/name] is the name, for
    any folder, nested or empty. *)
Theorem basename_of_joined_path (folder name : string) :
  has_slash name = false ->
  basename (folder +:+ "/" +:+ name) = name.
Proof.
  intros Hplain. unfold basename.
  change ("/" +:+ name) with (String "/" name).
  rewrite basename_from_joined. by rewrite basename_from_plain.
Qed.

Lemma basename_of_joined_path_witness :
  basename ("documents/2024/reports" +:+ "/" +:+ "guide.pdf") = "guide.pdf".
Proof. apply basename_of_joined_path. reflexivity. Defined.

(** ** The management page *)

Section DeleteMore.
Context (env : Env).

(** The delete loop keeps every chunk that names none of the selected rows
    and every registry row whose id is none of theirs. *)
Lemma delete_loop_keeps rows : forall w,
  let w' := final (for_each rows (Documents.delete_row env)) w in
  (forall d, d ∈ documents w ->
     (forall row, row ∈ rows -> ¬ has_source (row_name row) d) -> d ∈ documents w')
  /\ (forall r, r ∈ uploaded_documents w ->
        (forall row, row ∈ rows -> row_id row ≠ row_id r) -> r ∈ uploaded_documents w').
Proof.
  induction rows as [|x rest IH]; intros w; [done|].
  unfold final in *. rewrite for_each_cons.
  destruct (delete_row_run env x w) as (evs & _ & ->).
  destruct (fails env (calls w)); simpl; [done|].
  destruct (fails env (S (calls w))); simpl.
  - split; [|done]. intros d Hd Hother. apply list_elem_of_filter. split; [|done].
    apply Hother. by left.
  - match goal with |- context [for_each rest _ ?w1] => destruct (IH w1) as [Hd Hr] end.
    simpl in *. split.
    + intros d Hin Hother. apply Hd.
      * apply list_elem_of_filter. split; [apply Hother; by left|done].
      * intros row Hrow. apply Hother. by right.
    + intros r Hin Hother. apply Hr.
      * apply list_elem_of_filter. split; [|done]. intros E. by apply (Hother x); [left|].
      * intros row Hrow. apply Hother. by right.
Qed.

Lemma delete_selected_tables rows button w :
  tables (final (Documents.delete_selected env rows button) w)
  = if button then tables (final (for_each rows (Documents.delete_row env)) w)
    else tables w.
Proof.
  unfold Documents.delete_selected, final.
  destruct (bool_decide_reflect (rows ≠ [])) as [Hne|He].
  - destruct button; [|done]. rewrite bind_unfold.
    destruct (for_each rows (Documents.delete_row env) w) as [[[]|e] w1]; done.
  - destruct rows; [|by destruct He]. by destruct button.
Qed.

End DeleteMore.

(** X12.  Deleting on the management page removes nothing else: whatever
    fails, a chunk whose [source] is the name of none of the selected rows
    stays in the store, and a registry row whose id is the id of none of
    them stays in the registry. *)
Theorem delete_keeps_the_rest (env : Env) (rows : list RegRow) (button : bool) (w : World) :
  let w' := final (Documents.delete_selected env rows button) w in
  (forall d, d ∈ documents w ->
     (forall row, row ∈ rows -> ¬ has_source (row_name row) d) -> d ∈ documents w')
  /\ (forall r, r ∈ uploaded_documents w ->
        (forall row, row ∈ rows -> row_id row ≠ row_id r) -> r ∈ uploaded_documents w').
Proof.
  pose proof (delete_selected_tables env rows button w) as Ht.
  destruct button.
  - injection Ht as Hr Hd _. simpl. rewrite Hr, Hd. apply delete_loop_keeps.
  - injection Ht as Hr Hd _. simpl. by rewrite Hr, Hd.
Qed.

(** X13.  The cascading delete does not reach what the directory script
    ingested.  After a run of the script, select on the management page
    the registry rows the script has just inserted and delete them:
    whatever failed in either step, every chunk the script stored is still
    in the vector store, because none of them carries a registered name as
    its [source]. *)
Theorem script_chunks_survive_delete (env env2 : Env) (dir : Directory) (w : World) :
  let w1 := final (main env dir) w in
  let rows := added (uploaded_documents w) (uploaded_documents w1) in
  let w2 := final (Documents.delete_selected env2 rows true) w1 in
  forall d, d ∈ added (documents w) (documents w1) ->
    (forall row, row ∈ rows -> ¬ has_source (row_name row) d)
    /\ d ∈ documents w2.
Proof.
  intros w1.
  destruct (script_source_is_not_the_key env dir w) as (rows' & new & Hr & Hdocs & Hkey).
  fold w1 in Hr, Hdocs. cbv zeta. rewrite Hr, added_app, Hdocs, added_app.
  intros d Hd.
  assert (forall row, row ∈ rows' -> ¬ has_source (row_name row) d) as Hother
    by (intros row Hrow; by apply Hkey).
  split; [done|].
  pose proof (delete_selected_tables env2 rows' true w1) as Ht.
  injection Ht as _ Ht _. rewrite Ht.
  apply delete_loop_keeps; [|done]. rewrite Hdocs. apply elem_of_app. by right.
Qed.

Lemma script_chunks_survive_delete_witness :
  let dir := [("guide.pdf", [page_of "one" "Ray"])] in
  let w1 := final (main demo_env dir) empty_world in
  let rows := added (uploaded_documents empty_world) (uploaded_documents w1) in
  let w2 := final (Documents.delete_selected demo_env rows true) w1 in
  length rows = 1
  /\ exists d, added (documents empty_world) (documents w1) = [d]
       /\ d ∈ documents w2.
Proof.
  intros dir w1 rows w2. split; [vm_compute; reflexivity|].
  eexists. split; [vm_compute; reflexivity|].
  apply (script_chunks_survive_delete demo_env demo_env dir empty_world).
  vm_compute. left.
Defined.

Section LoadData.
Context (env : Env).



End LoadData.


Lemma NoDup_fmap_eq {A B} (g : A -> B) (l : list A) x y :
  NoDup (g <$> l) -> x ∈ l -> y ∈ l -> g x = g y -> x = y.
Proof.
  induction l as [|a l IH]; intros Hnd Hx Hy E; [by apply not_elem_of_nil in Hx|].
  rewrite fmap_cons in Hnd. apply NoDup_cons in Hnd as [Ha Hnd].
  apply elem_of_cons in Hx as [->|Hx]; apply elem_of_cons in Hy as [->|Hy]; [done| | |by apply IH].
  - exfalso. apply Ha. rewrite E. by apply list_elem_of_fmap_2.
  - exfalso. apply Ha. rewrite <- E. by apply list_elem_of_fmap_2.
Qed.

Section SaveChanges.
Context (env : Env).

Lemma registry_update_run id row w :
  let w' := final (DocumentsPage.registry_update env id row) w in
  documents w' = documents w /\ next_id w' = next_id w
  /\ (uploaded_documents w' = uploaded_documents w
      \/ uploaded_documents w'
         = (fun r => if decide (row_id r = id) then row else r) <$> uploaded_documents w).
Proof.
  unfold DocumentsPage.registry_update, remote, final.
  destruct (fails env (calls w)); simpl; repeat split; first [by left|by right].
Qed.

Lemma save_changes_tables edited button w :
  tables (final (DocumentsPage.save_changes env edited button) w)
  = if button then
      tables (final (for_each edited
                       (fun row => DocumentsPage.registry_update env (row_id row.1) row.1)) w)
    else tables w.
Proof.
  unfold DocumentsPage.save_changes, final. destruct button; [|done].
  destruct (bool_decide_reflect (edited ≠ [])) as [Hne|He].
  - rewrite bind_unfold.
    destruct (for_each edited _ w) as [[[]|e] w1]; done.
  - destruct edited; [done|by destruct He].
Qed.

End SaveChanges.

(** X15.  Save Changes never adds or removes a registry row, never changes
    an id and never touches a chunk, whatever was edited in the grid and
    whichever calls fail; so the chunks of a document renamed in the grid
    keep the old name as their [source]. *)
Theorem save_keeps_ids_and_chunks (env : Env) (edited : list (RegRow * Z)) (button : bool)
    (w : World) :
  let w' := final (DocumentsPage.save_changes env edited button) w in
  documents w' = documents w
  /\ row_id <$> uploaded_documents w' = row_id <$> uploaded_documents w
  /\ next_id w' = next_id w.
Proof.
  pose proof (save_changes_tables env edited button w) as Ht. unfold tables in Ht.
  destruct button; [|done].
  set (P := fun w' : World =>
              documents w' = documents w
              /\ row_id <$> uploaded_documents w' = row_id <$> uploaded_documents w
              /\ next_id w' = next_id w).
  assert (P (final (for_each edited
              (fun row => DocumentsPage.registry_update env (row_id row.1) row.1)) w)) as HP.
  { apply (preserves_for_each P); [|done].
    intros rc w1 (Hd & Hi & Hn).
    destruct (registry_update_run env (row_id rc.1) rc.1 w1) as (Hd' & Hn' & [Hr|Hr]);
      unfold P; rewrite Hd', Hn', Hr; [done|].
    split; [done|]. split; [|done]. rewrite <- Hi, <- list_fmap_compose.
    apply list_fmap_ext. intros i r _. simpl. by destruct (decide _). }
  destruct HP as (Hd & Hi & Hn). injection Ht as Hr' Hd' Hn'. cbv zeta.
  split; [etrans; [exact Hd'|exact Hd]|].
  split; [etrans; [exact (f_equal (fmap row_id) Hr')|exact Hi]|].
  etrans; [exact Hn'|exact Hn].
Qed.

(** X16.  Saving a grid nobody edited changes nothing: when the ids of the
    registry are distinct and every row of the grid is a row of the
    registry, Save Changes leaves the registry as it was, whichever calls
    fail. *)
Theorem save_unedited_changes_nothing (env : Env) (edited : list (RegRow * Z))
    (button : bool) (w : World) :
  NoDup (row_id <$> uploaded_documents w) ->
  Forall (fun rc => rc.1 ∈ uploaded_documents w) edited ->
  uploaded_documents (final (DocumentsPage.save_changes env edited button) w)
  = uploaded_documents w.
Proof.
  intros Hnd Hall.
  pose proof (save_changes_tables env edited button w) as Ht. unfold tables in Ht.
  destruct button; [|done].
  injection Ht as Hr0 _ _. etrans; [exact Hr0|].
  set (P := fun w' : World => uploaded_documents w' = uploaded_documents w).
  apply (preserves_for_each_in P); [|done].
  intros rc Hrc w1 Hw1. rewrite Forall_forall in Hall. specialize (Hall rc Hrc).
  destruct (registry_update_run env (row_id rc.1) rc.1 w1) as (_ & _ & [Hr|Hr]);
    unfold P; rewrite Hr; [done|].
  rewrite Hw1. rewrite <- (list_fmap_id (uploaded_documents w)) at 2.
  apply list_fmap_ext. intros i r Hr'. simpl.
  destruct (decide (row_id r = row_id rc.1)) as [E|]; [|done].
  apply list_elem_of_lookup_2 in Hr'. symmetry. by apply (NoDup_fmap_eq row_id _ _ _ Hnd).
Qed.

Lemma save_unedited_changes_nothing_witness :
  let w := final (Uploader.upload_page demo_env [guide; other] true) empty_world in
  let grid := [(mkRegRow 2 "other.pdf" "Ann", 1%Z); (mkRegRow 1 "guide.pdf" "Ray", 1%Z)] in
  uploaded_documents (final (DocumentsPage.save_changes (faulty_env [9]) grid true) w)
  = uploaded_documents w.
Proof.
  intros w grid. apply save_unedited_changes_nothing.
  - apply (bool_decide_unpack _). vm_compute. exact I.
  - apply (bool_decide_unpack _). vm_compute. exact I.
Defined.

(** ** The chat page *)





(** ** ingest_in_db.py *)

(** X19.  The plain ingestion script knows no registry and no duplicates.
    Whatever fails, it leaves the registry as it is.  When no call fails it
    stores every chunk of every page of the folder, so a second run over
    the same folder stores all of them a second time. *)
Theorem plain_ingestion_duplicates (env : Env) (dir : Directory) (w : World) :
  let w1 := final (IngestInDb.main env dir) w in
  let w2 := final (IngestInDb.main env dir) w1 in
  let chunks := split_documents env (directory_pages dir) in
  uploaded_documents w1 = uploaded_documents w
  /\ ((forall k, fails env k = false) ->
      outcome (IngestInDb.main env dir) w = Ok tt
      /\ documents w1 = documents w ++ chunks
      /\ documents w2 = documents w ++ chunks ++ chunks
      /\ uploaded_documents w2 = uploaded_documents w).
Proof.
  unfold IngestInDb.main, PyPDFDirectoryLoader_load, add_documents, external, final, outcome.
  unfold_m. simpl. split.
  - destruct (fails env (calls w)); simpl; [done|].
    destruct (fails env (S (calls w))); done.
  - intros Hok. rewrite !Hok. simpl. rewrite ?Hok. simpl.
    repeat split; try done. by rewrite <- app_assoc.
Qed.

Lemma plain_ingestion_duplicates_witness :
  let dir := [("guide.pdf", [page_of "Two hundred words." "Ray"])] in
  let w1 := final (IngestInDb.main demo_env dir) empty_world in
  let w2 := final (IngestInDb.main demo_env dir) w1 in
  page_content <$> documents w2 = ["Two hundred words."; "Two hundred words."]
  /\ uploaded_documents w2 = [].
Proof.
  intros dir w1 w2.
  destruct (plain_ingestion_duplicates demo_env dir empty_world) as [_ Hok].
  destruct (Hok (fun _ => eq_refl)) as (_ & _ & Hd & Hr).
  split; [|exact Hr]. subst w2 w1. rewrite Hd. vm_compute. reflexivity.
Defined.

(** ** embed_completions.py *)

Lemma item_present row k : is_Some (row !! k) ->
  exists v, EmbedCompletions.item row k = Ok v.
Proof. intros [v Hv]. exists v. unfold EmbedCompletions.item. by rewrite Hv. Qed.

(** X20.  [row_to_summary] needs exactly its ten indexed columns.  When
    all of them are present it returns a summary, whether or not the two
    columns it reads with [get] exist.  When one is missing it raises a
    [KeyError] for the first missing one in the order it reads them. *)
Theorem row_to_summary_needs_its_columns (row : gmap string string) :
  (Forall (fun k => is_Some (row !! k)) EmbedCompletions.REQUIRED ->
   exists summary, EmbedCompletions.row_to_summary row = Ok summary)
  /\ (forall before k after,
        EmbedCompletions.REQUIRED = before ++ k :: after ->
        Forall (fun k' => is_Some (row !! k')) before ->
        row !! k = None ->
        EmbedCompletions.row_to_summary row = Raise (KeyError k)).
Proof.
  unfold EmbedCompletions.REQUIRED, EmbedCompletions.row_to_summary. split.
  - intros Hall. repeat (apply Forall_cons in Hall as [[? ?] Hall]).
    unfold EmbedCompletions.item. repeat (match goal with H : row !! _ = Some _ |- _ =>
      rewrite H; clear H end). simpl. by eexists.
  - intros before k after Heq Hall Hnone.
    unfold EmbedCompletions.item.
    repeat (destruct before as [|? before];
            [injection Heq as <- _; rewrite ?Hnone; done
            |injection Heq as <- Heq;
             apply Forall_cons in Hall as [[? Hk] Hall]; rewrite Hk; clear Hk; simpl]).
    by destruct before.
Qed.

Lemma row_to_summary_needs_its_columns_witness :
  let row : gmap string string :=
    {["Client" := "A. Client"; "Adviser" := "B. Adviser"; "Source" := "Web";
      "Comp Date" := "2024-01-31"]} in
  EmbedCompletions.row_to_summary row = Raise (KeyError "Product").
Proof.
  intros row.
  destruct (row_to_summary_needs_its_columns row) as [_ Hmissing].
  apply (Hmissing ["Client"; "Adviser"; "Source"] "Product"
           ["Lender"; "Release"; "Interest Rate"; "Proc Fee"; "Adv Fee"; "MF"]).
  - reflexivity.
  - repeat (apply Forall_cons; split; [by eexists|]). apply Forall_nil_2.
  - vm_compute. reflexivity.
Defined.

(** ** Inputs for the properties stated earlier *)

Lemma uploader_empty_chunks_witness :
  let scan := Uploader.mkUploadedFile "scan.pdf" [page_of "" "Ray"] in
  let w' := final (Uploader.process_and_ingest_pdf demo_env scan) empty_world in
  uploaded_documents w' = [] /\ documents w' = []
  /\ outcome (Uploader.process_and_ingest_pdf demo_env scan) empty_world = Ok tt.
Proof.
  intros scan.
  destruct (uploader_empty_chunks demo_env scan empty_world) as (Hr & Hd & Hok).
  - vm_compute. reflexivity.
  - split; [exact Hr|]. split; [exact Hd|].
    destruct Hok as [Hout _]; [|reflexivity|reflexivity|exact Hout].
    apply (bool_decide_unpack _). vm_compute. exact I.
Defined.

Lemma script_registers_without_chunks_witness :
  let w' := final (main demo_env [("scan.pdf", [page_of "" "Ray"])]) empty_world in
  registered "scan.pdf" w' /\ documents w' = [].
Proof.
  destruct (script_registers_without_chunks demo_env "scan.pdf" (page_of "" "Ray") []
              empty_world) as (_ & Hreg & Hd).
  - intros k. reflexivity.
  - reflexivity.
  - apply (bool_decide_unpack _). vm_compute. exact I.
  - apply Forall_cons. split; [vm_compute; reflexivity|apply Forall_nil_2].
  - split; [exact Hreg|exact Hd].
Defined.

Lemma sql_prompt_names_table_witness :
  let run := Raymondo.chat demo_env None
               (Some (Raymondo.mkSqlExecutor "postgresql://x" ["completions"] "openai-tools"))
               Raymondo.CASE_OPTION (Some "How many cases?") [] in
  exists question,
    "Based on the 'completions' table, answer the user's question: How many cases?"
    = "Based on the 'completions' table, answer the user's question: " +:+ question.
Proof.
  intros run.
  apply (sql_prompt_names_table demo_env None
           (Some (Raymondo.mkSqlExecutor "postgresql://x" ["completions"] "openai-tools"))
           Raymondo.CASE_OPTION (Some "How many cases?") [] empty_world _ true).
  vm_compute. left.
Defined.



